(** * Micro-Atlas webhook receiver: ingestion, enrichment and persistence

    A shallow embedding of [webhook_receiver.py]: the three Flask routes
    ([sms_webhook], [web_clip_webhook], [receive_email]), the OpenAI
    wrapper [get_ai_analysis], the keyword parser
    [parse_keywords_response] and the Supabase writer
    [save_note_to_database].

    Conventions of the embedding.
    - A Python [str] is a [string]; a character is a code point below
      256, so [isspace] is Python's [str.isspace] on that range (the emoji
      of the SMS reply lies outside it and stands as its UTF-8 bytes).
    - The module is read as Python 3.12 reads it: the f-string of the
      keyword serializer has backslashes inside its expression, which
      earlier versions refuse.
    - A value that may be [None] is an [option]; [request.form] and the
      JSON object of a web clip are association lists of string fields.
    - The OpenAI service and the PostgreSQL connection are oracles gathered
      in an environment; every call on them is logged in a trace, and may
      return or raise.
    - A Python function is a computation in a state-and-exception monad
      over the world (trace and table); [print] is not modelled. *)

From Stdlib Require Import String Ascii List Bool Arith ZArith QArith.
Import ListNotations.
Local Close Scope Q_scope.
Local Open Scope nat_scope.
Local Open Scope list_scope.
Local Open Scope string_scope.

(** ** Python strings *)

Module PyStr.

Definition dquote : ascii := "034"%char.
Definition backslash : ascii := "092"%char.
Definition comma : ascii := ","%char.
Definition nl : string := String "010"%char "".

(** [str.isspace] for one character: TAB, LF, VT, FF, CR, the separators
    FS, GS, RS, US, the space, NEL (0x85) and the no-break space (0xA0). *)
Definition isspace (c : ascii) : bool :=
  let n := nat_of_ascii c in
  (Nat.leb 9 n && Nat.leb n 13) || (Nat.leb 28 n && Nat.leb n 32)
  || Nat.eqb n 133 || Nat.eqb n 160.

(** Truth value of a string: the empty string is false. *)
Definition truthy (s : string) : bool :=
  match s with
  | EmptyString => false
  | String _ _ => true
  end.

(** Truth value of an optional string: [None] and the empty string are false. *)
Definition truthy_opt (o : option string) : bool :=
  match o with
  | None => false
  | Some s => truthy s
  end.

Fixpoint lstrip (s : string) : string :=
  match s with
  | EmptyString => EmptyString
  | String c r => if isspace c then lstrip r else s
  end.

Fixpoint rstrip (s : string) : string :=
  match s with
  | EmptyString => EmptyString
  | String c r =>
      match rstrip r with
      | EmptyString => if isspace c then EmptyString else String c EmptyString
      | r' => String c r'
      end
  end.

(** [s.strip()] *)
Definition strip (s : string) : string := rstrip (lstrip s).

(** [s.split(sep)] for a one-character separator: never the empty list. *)
Fixpoint split (sep : ascii) (s : string) : list string :=
  match s with
  | EmptyString => [EmptyString]
  | String c r =>
      if Ascii.eqb c sep then EmptyString :: split sep r
      else match split sep r with
           | p :: ps => String c p :: ps
           | [] => [String c EmptyString]
           end
  end.

(** [sep.join(l)] *)
Fixpoint join (sep : string) (l : list string) : string :=
  match l with
  | [] => EmptyString
  | [x] => x
  | x :: r => x ++ sep ++ join sep r
  end.

(** [s.replace(old, new)] for a one-character [old]. *)
Fixpoint replace (old : ascii) (new : string) (s : string) : string :=
  match s with
  | EmptyString => EmptyString
  | String c r =>
      if Ascii.eqb c old then new ++ replace old new r
      else String c (replace old new r)
  end.

(** [s.startswith(p)] *)
Definition startswith (p s : string) : bool := String.prefix p s.

Fixpoint contains (c : ascii) (s : string) : bool :=
  match s with
  | EmptyString => false
  | String x r => Ascii.eqb x c || contains c r
  end.

End PyStr.
Import PyStr.

(** ** Keyword parsing *)

(** [[k.strip() for k in response_text.split(',') if k.strip()]] *)
Definition parse_keywords_response (response_text : string) : list string :=
  map strip (filter (fun k => truthy (strip k)) (split comma response_text)).

(** The parsing as the specification words it: split on commas, trim every
    piece, then discard the empty pieces. *)
Definition spec_parse_keywords (raw : string) : list string :=
  filter truthy (map strip (split comma raw)).

(** ** Keyword serialization *)

(** One element of the array literal, the f-string of the comprehension:
    the keyword between double quotes, after [k.replace] has put a backslash
    in front of every double quote in it. *)
Definition pg_quote (k : string) : string :=
  String dquote (replace dquote (String backslash (String dquote "")) k)
  ++ String dquote "".

(** ['{' + ','.join([... for k in keywords]) + '}'] *)
Definition keywords_pg_array (keywords : list string) : string :=
  "{" ++ join "," (map pg_quote keywords) ++ "}".

(** ** Exceptions, requests and rows *)

(** The classes of [Exception] the program meets: [psycopg2.Error] and its
    subclasses, the built-in errors raised by the interpreter itself, and
    any other subclass of [Exception]. *)
Inductive exn_class : Type :=
  | PsycopgError
  | AttributeError
  | IndexError
  | TypeError
  | UnboundLocalError
  | OtherException.

(** An exception instance; [exn_str e] is [str(e)]. *)
Record exn : Type := Exn { exn_cls : exn_class; exn_str : string }.

(** The keyword arguments of [openai.chat.completions.create]; a message is
    a (role, content) pair. *)
Record chat_request : Type := ChatRequest {
  model : string;
  messages : list (string * string);
  temperature : Q;
  max_tokens : nat
}.

(** What the service answers: it raises, or it returns a response whose
    [choices] carry a message content each ([None] when the content is null). *)
Inductive chat_outcome : Type :=
  | ChatRaise (e : exn)
  | ChatResponse (choices : list (option string)).

(** The parameters of the INSERT into [user_notes]; the store fills [id] and
    [timestamp]. [keywords] travels as the array literal text. *)
Record row : Type := Row {
  content : string;
  summary : string;
  sentiment : string;
  keywords : string;
  username : option string
}.

(** What [cur.fetchone()] gives: it raises, returns [None], or returns the
    one-column tuple with the generated id. *)
Inductive fetch_outcome : Type :=
  | FetchRaise (e : exn)
  | FetchNone
  | FetchRow (id : Z).

(** How the store behaves during one request: for each call on the
    connection or the cursor, whether it raises ([Some e]) or returns. *)
Record db_oracle : Type := DbOracle {
  connect_raises : option exn;
  cursor_raises : option exn;
  execute_raises : option exn;
  fetchone_gives : fetch_outcome;
  commit_raises : option exn;
  rollback_raises : option exn;
  cursor_close_raises : option exn;
  conn_close_raises : option exn
}.

(** The external collaborators of one request. The three chat requests of a
    request differ in their prompt, so a function of the request fixes each
    answer independently. *)
Record env : Type := Env {
  chat : chat_request -> chat_outcome;
  db : db_oracle
}.

(** Calls that leave the process, in the order they are made. *)
Inductive event : Type :=
  | EvChat (r : chat_request)
  | EvConnect
  | EvCursor
  | EvExecute (r : row)
  | EvFetchone
  | EvCommit
  | EvRollback
  | EvCursorClose
  | EvConnClose.

(** The world: the trace of calls, the committed rows of [user_notes], and
    the rows inserted by the open transaction that are not yet committed. *)
Record world : Type := World {
  trace : list event;
  table : list row;
  pending : list row
}.

(** ** The monad of Python computations *)

Inductive result (A : Type) : Type :=
  | Ret (a : A)
  | Raise (e : exn).
Arguments Ret {A} a.
Arguments Raise {A} e.

Definition M (A : Type) : Type := world -> result A * world.

Definition ret {A} (a : A) : M A := fun w => (Ret a, w).

Definition raise {A} (e : exn) : M A := fun w => (Raise e, w).

Definition bind {A B} (m : M A) (k : A -> M B) : M B :=
  fun w =>
    match m w with
    | (Ret a, w') => k a w'
    | (Raise e, w') => (Raise e, w')
    end.

(** Runs [m] and hands back how it ended instead of raising: the building
    block of [try] ... [except Exception] ... [finally]. *)
Definition attempt {A} (m : M A) : M (result A) :=
  fun w => let (r, w') := m w in (Ret r, w').

(** Resumes the way a suspended outcome ended. *)
Definition resume {A} (r : result A) : M A :=
  match r with
  | Ret a => ret a
  | Raise e => raise e
  end.

Declare Scope py_scope.
Delimit Scope py_scope with py.
Notation "x <- c1 ;; c2" := (bind c1 (fun x => c2))
  (at level 100, c1 at next level, right associativity) : py_scope.
Notation "c1 ;; c2" := (bind c1 (fun _ => c2))
  (at level 100, right associativity) : py_scope.
Local Open Scope py_scope.

Definition log (ev : event) : M unit :=
  fun w => (Ret tt, World (trace w ++ [ev])%list (table w) (pending w)).

Definition modify (f : world -> world) : M unit :=
  fun w => (Ret tt, f w).

(** One call on an external object: logged, then it raises or takes effect. *)
Definition call (ev : event) (raises : option exn) (effect : world -> world) : M unit :=
  log ev ;;
  match raises with
  | Some e => raise e
  | None => modify effect
  end.

(** [l[0]] *)
Definition subscript0 {A} (l : list A) : M A :=
  match l with
  | x :: _ => ret x
  | [] => raise (Exn IndexError "list index out of range")
  end.

(** [t[0]] where [t] is a tuple or [None] *)
Definition subscript0_opt {A} (t : option (list A)) : M A :=
  match t with
  | Some l => subscript0 l
  | None => raise (Exn TypeError "'NoneType' object is not subscriptable")
  end.

(** [x.strip()] where [x] is a string or [None] *)
Definition strip_method (x : option string) : M string :=
  match x with
  | Some s => ret (strip s)
  | None => raise (Exn AttributeError "'NoneType' object has no attribute 'strip'")
  end.

(** A field [{x}] of an f-string, where [x] is a string or [None] *)
Definition fmt (x : option string) : string :=
  match x with
  | Some s => s
  | None => "None"
  end.

(** [d.get(key)] on form fields or on a JSON object: the first value. *)
Fixpoint get (d : list (string * string)) (key : string) : option string :=
  match d with
  | [] => None
  | (k, v) :: r => if String.eqb k key then Some v else get r key
  end.

(** [d.get(key, default)] *)
Definition get_default (d : list (string * string)) (key default : string) : string :=
  match get d key with
  | Some v => v
  | None => default
  end.

(** ** The program *)

Inductive connection : Type := Conn.
Inductive cursor : Type := Cur.

(** The body of a Flask reply: [jsonify] of a dictionary, a plain string, or
    the TwiML document [str(twilio_response)] carrying one message. *)
Inductive body : Type :=
  | Json (fields : list (string * string))
  | Text (s : string)
  | Twiml (message : string).

(** A view returns the pair (body, status). *)
Definition response : Type := (body * nat)%type.

(** A web clip request: whether [request.is_json] holds, and the fields of
    the object [request.get_json()] returns (a field that is JSON null reads
    as [None] through [get], like a field that is not there; an object
    has each key once). *)
Record web_clip_request : Type := WebClipRequest {
  is_json : bool;
  get_json : list (string * string)
}.

Definition quote_mark : string := String dquote "".

(** The long prompt of the ['full_analysis_prompt'] type. *)
Definition full_analysis_prompt (text_input : string) : string :=
  join nl [
    "";
    "You are an expert knowledge curator and cognitive cartographer, helping individuals map their learning journey.";
    "Your task is to analyze the following unstructured text, which describes a user's recent learning, consumption, or project experiences.";
    "From this text, you need to extract and categorize the following key elements of their knowledge landscape:";
    "";
    "1.  **Core Concepts & Topics:** Identify the main subject matters or abstract ideas discussed.";
    "2.  **Key Skills & Technologies:** List any specific practical abilities or tools (e.g., programming languages, software, methodologies) mentioned or clearly implied as being used or learned.";
    "3.  **Cross-Cutting Competencies:** Identify broader, transferable skills demonstrated (e.g., Problem Solving, Data Analysis, Communication, Project Management, Critical Thinking, Leadership, User Research).";
    "4.  **Noteworthy Connections & Insights:** Describe any explicit or implicit relationships you find between the concepts, skills, or competencies. This is where you connect disparate pieces of learning.";
    "";
    "**Instructions for Formatting the Output:**";
    "- Use clear, concise language.";
    "- Format each section with a bold heading.";
    "- Use bullet points for each item within a section.";
    "- For " ++ quote_mark ++ "Core Concepts & Topics," ++ quote_mark ++ " provide a very brief, 1-sentence explanation if necessary.";
    "- For " ++ quote_mark ++ "Noteworthy Connections & Insights," ++ quote_mark ++ " explain *how* different elements are related.";
    "";
    "---";
    "User's Learning Content to Analyze:";
    quote_mark ++ text_input ++ quote_mark;
    "---";
    ""
  ].

(** The [user_prompt] that [get_ai_analysis] builds for a prompt type. *)
Definition user_prompt (text_input prompt_type : string) : string :=
  if String.eqb prompt_type "summary" then
    "Summarize the following text concisely:" ++ nl ++ nl ++ text_input
  else if String.eqb prompt_type "sentiment" then
    "What is the sentiment of the following text (positive, negative, neutral)? Just provide the sentiment word."
    ++ nl ++ nl ++ text_input
  else if String.eqb prompt_type "keywords" then
    "Extract 5-10 key keywords from the following text, separated by commas. Only provide the keywords."
    ++ nl ++ nl ++ text_input
  else if String.eqb prompt_type "full_analysis_prompt" then
    full_analysis_prompt text_input
  else "".

(** The request [get_ai_analysis] sends for a text and a prompt type. *)
Definition chat_request_for (text_input prompt_type : string) : chat_request :=
  let system_message := "You are a helpful AI assistant." in
  {| model := "gpt-3.5-turbo";
     messages := [("system", system_message);
                  ("user", user_prompt text_input prompt_type)];
     temperature := 7 # 10;
     max_tokens := 500 |}.

Section Program.

Variable E : env.

(** [openai.chat.completions.create(...)], giving [response.choices] with
    the [message.content] of each choice. *)
Definition openai_chat_create (r : chat_request) : M (list (option string)) :=
  log (EvChat r) ;;
  match chat E r with
  | ChatRaise e => raise e
  | ChatResponse choices => ret choices
  end.

Definition get_ai_analysis (text_input prompt_type : string) : M string :=
  r <- attempt (
         choices <- openai_chat_create (chat_request_for text_input prompt_type) ;;
         message_content <- subscript0 choices ;;
         strip_method message_content) ;;
  match r with
  | Ret s => ret s
  | Raise e => ret ("Error: " ++ exn_str e)
  end.

(** [psycopg2.connect(...)]: a new connection has no pending row. *)
Definition psycopg2_connect : M connection :=
  call EvConnect (connect_raises (db E))
       (fun w => World (trace w) (table w) []) ;;
  ret Conn.

Definition get_supabase_connection : M (option connection) :=
  r <- attempt psycopg2_connect ;;
  match r with
  | Ret conn => ret (Some conn)
  | Raise _ => ret None
  end.

Definition conn_cursor (conn : connection) : M cursor :=
  call EvCursor (cursor_raises (db E)) (fun w => w) ;;
  ret Cur.

(** [cur.execute(insert_query, params)]: the row joins the transaction. *)
Definition cursor_execute (cur : cursor) (params : row) : M unit :=
  call (EvExecute params) (execute_raises (db E))
       (fun w => World (trace w) (table w) (pending w ++ [params])%list).

Definition cursor_fetchone (cur : cursor) : M (option (list Z)) :=
  log EvFetchone ;;
  match fetchone_gives (db E) with
  | FetchRaise e => raise e
  | FetchNone => ret None
  | FetchRow id => ret (Some [id])
  end.

(** [conn.commit()]: the pending rows become rows of the table. *)
Definition conn_commit (conn : connection) : M unit :=
  call EvCommit (commit_raises (db E))
       (fun w => World (trace w) (table w ++ pending w)%list []).

(** [conn.rollback()]: the pending rows are dropped. *)
Definition conn_rollback (conn : connection) : M unit :=
  call EvRollback (rollback_raises (db E))
       (fun w => World (trace w) (table w) []).

Definition cursor_close (cur : cursor) : M unit :=
  call EvCursorClose (cursor_close_raises (db E)) (fun w => w).

(** [conn.close()]: what was not committed is lost. *)
Definition conn_close (conn : connection) : M unit :=
  call EvConnClose (conn_close_raises (db E))
       (fun w => World (trace w) (table w) []).

(** [save_note_to_database]. The local [cur] is bound only once
    [conn.cursor()] has returned: [bound_cur] keeps how that statement ended,
    and the [finally] clause, which reads [cur], raises [UnboundLocalError]
    when it is not bound. Both [except] clauses do the same (they differ in
    what they print), and [if conn:] holds for every connection object. *)
Definition save_note_to_database
    (content summary sentiment : string) (keywords : list string)
    (username : option string) : M bool :=
  conn <- get_supabase_connection ;;
  match conn with
  | None => ret false
  | Some conn =>
      (* try: *)
      bound_cur <- attempt (conn_cursor conn) ;;
      tried <- match bound_cur with
               | Raise e => ret (Raise e)
               | Ret cur =>
                   attempt (
                     let keywords_pg_array := keywords_pg_array keywords in
                     cursor_execute cur
                       (Row content summary sentiment keywords_pg_array username) ;;
                     fetched <- cursor_fetchone cur ;;
                     inserted_id <- subscript0_opt fetched ;;
                     conn_commit conn ;;
                     ret true)
               end ;;
      (* except psycopg2.Error / except Exception: *)
      handled <- match tried with
                 | Ret b => ret (Ret b)
                 | Raise _ => attempt (conn_rollback conn ;; ret false)
                 end ;;
      (* finally: *)
      match bound_cur with
      | Ret cur => cursor_close cur
      | Raise _ =>
          raise (Exn UnboundLocalError
            "cannot access local variable 'cur' where it is not associated with a value")
      end ;;
      conn_close conn ;;
      resume handled
  end.

Definition sms_webhook (form : list (string * string)) : M response :=
  let sender_number := get_default form "From" "Unknown" in
  let message_body := get_default form "Body" "" in
  if negb (truthy (strip message_body)) then
    ret (Json [("status", "error"); ("message", "Empty SMS body")], 400)
  else
    summary <- get_ai_analysis message_body "summary" ;;
    sentiment <- get_ai_analysis message_body "sentiment" ;;
    raw_keywords_response <- get_ai_analysis message_body "keywords" ;;
    let keywords := parse_keywords_response raw_keywords_response in
    let username_for_note := sender_number in
    saved <- save_note_to_database message_body summary sentiment keywords
               (Some username_for_note) ;;
    if saved then
      ret (Twiml "Your SMS note has been processed and saved to Micro-Atlas! 🧠", 200)
    else
      ret (Twiml "Failed to process your SMS note. Please try again.", 500).

Definition web_clip_webhook (request : web_clip_request) : M response :=
  if negb (is_json request) then
    ret (Json [("error", "Request must be JSON")], 400)
  else
    let data := get_json request in
    let clipped_url := get data "url" in
    let clipped_text := get data "text" in
    let username_for_note := get data "username" in
    let username_for_note :=
      if negb (truthy_opt username_for_note) then Some "unknown_web_clipper"
      else username_for_note in
    (* not clipped_url or not clipped_text.strip() *)
    missing <- (if negb (truthy_opt clipped_url) then ret true
                else stripped <- strip_method clipped_text ;;
                     ret (negb (truthy stripped))) ;;
    if missing then
      ret (Json [("error", "Missing 'url' or 'text' in request body")], 400)
    else
      let full_content :=
        "Web Clip from " ++ fmt clipped_url ++ ":" ++ nl ++ nl ++ fmt clipped_text in
      summary <- get_ai_analysis full_content "summary" ;;
      sentiment <- get_ai_analysis full_content "sentiment" ;;
      raw_keywords_response <- get_ai_analysis full_content "keywords" ;;
      let keywords := parse_keywords_response raw_keywords_response in
      saved <- save_note_to_database full_content summary sentiment keywords
                 username_for_note ;;
      if saved then
        ret (Json [("message", "Web clip received and saved!")], 200)
      else
        ret (Json [("error", "Failed to save web clip")], 500).

Definition receive_email (form : list (string * string)) : M response :=
  let sender := get form "sender" in
  let subject := get form "subject" in
  let body_plain := get form "body-plain" in
  stripped <- strip_method body_plain ;;
  if negb (truthy stripped) then
    ret (Text "Missing email body", 400)
  else
    let full_content :=
      if truthy_opt subject then
        "Subject: " ++ fmt subject ++ nl ++ nl ++ fmt body_plain
      else fmt body_plain in
    summary <- get_ai_analysis full_content "summary" ;;
    sentiment <- get_ai_analysis full_content "sentiment" ;;
    raw_keywords_response <- get_ai_analysis full_content "keywords" ;;
    let keywords := parse_keywords_response raw_keywords_response in
    saved <- save_note_to_database full_content summary sentiment keywords sender ;;
    if saved then
      ret (Text "Email received and saved!", 200)
    else
      ret (Text "Error saving email", 500).

End Program.

(** ** Notions used to state the properties *)

(** The world after more calls were logged. *)
Definition logged (w : world) (evs : list event) : world :=
  World (trace w ++ evs)%list (table w) (pending w).

(** The events a run added to the trace. *)
Definition new_events (w w' : world) : list event :=
  skipn (length (trace w)) (trace w').

(** The chat requests among a list of events, in order. *)
Fixpoint chat_calls (evs : list event) : list chat_request :=
  match evs with
  | [] => []
  | EvChat r :: rest => r :: chat_calls rest
  | _ :: rest => chat_calls rest
  end.

(** Whether an event is a call on the store. *)
Definition is_store_event (ev : event) : bool :=
  match ev with
  | EvChat _ => false
  | _ => true
  end.

(** The run from [w] to [w'] added exactly the row [r] to the table. *)
Definition persisted (w w' : world) (r : row) : Prop :=
  table w' = (table w ++ [r])%list.

(** A store on which connecting, inserting, reading the id back, committing
    and releasing all go through. *)
Definition store_ok (o : db_oracle) : bool :=
  match connect_raises o, cursor_raises o, execute_raises o, fetchone_gives o,
        commit_raises o, cursor_close_raises o, conn_close_raises o with
  | None, None, None, FetchRow _, None, None, None => true
  | _, _, _, _, _, _, _ => false
  end.

(** The text [get_ai_analysis] returns for an answer of the service. *)
Definition analysis_of (o : chat_outcome) : string :=
  match o with
  | ChatRaise e => "Error: " ++ exn_str e
  | ChatResponse [] => "Error: list index out of range"
  | ChatResponse (None :: _) => "Error: 'NoneType' object has no attribute 'strip'"
  | ChatResponse (Some s :: _) => strip s
  end.

Definition analysis (E : env) (text_input prompt_type : string) : string :=
  analysis_of (chat E (chat_request_for text_input prompt_type)).

(** The calls [save_note_to_database] makes on a store that accepts the row. *)
Definition store_calls (r : row) : list event :=
  [EvConnect; EvCursor; EvExecute r; EvFetchone; EvCommit; EvCursorClose; EvConnClose].

(** The three replies of the routes once persistence has answered. *)
Definition sms_reply (saved : bool) : response :=
  if saved then
    (Twiml "Your SMS note has been processed and saved to Micro-Atlas! 🧠", 200)
  else (Twiml "Failed to process your SMS note. Please try again.", 500).

Definition web_clip_reply (saved : bool) : response :=
  if saved then (Json [("message", "Web clip received and saved!")], 200)
  else (Json [("error", "Failed to save web clip")], 500).

Definition email_reply (saved : bool) : response :=
  if saved then (Text "Email received and saved!", 200)
  else (Text "Error saving email", 500).

(** The content and the username of a web clip and of an email, as the
    specification words them: the field decides by being there or not. *)
Definition spec_web_clip_content (url text : string) : string :=
  "Web Clip from " ++ url ++ ":" ++ nl ++ nl ++ text.

Definition spec_web_clip_username (username : option string) : string :=
  match username with
  | Some u => u
  | None => "unknown_web_clipper"
  end.

Definition spec_email_content (subject : option string) (body_plain : string) : string :=
  match subject with
  | Some s => "Subject: " ++ s ++ nl ++ nl ++ body_plain
  | None => body_plain
  end.

(** What the code does with them: an empty field counts as a missing one. *)
Definition web_clip_username (username : option string) : string :=
  match username with
  | Some (String c u) => String c u
  | _ => "unknown_web_clipper"
  end.

Definition email_content (subject : option string) (body_plain : string) : string :=
  match subject with
  | Some (String c s) => "Subject: " ++ String c s ++ nl ++ nl ++ body_plain
  | _ => body_plain
  end.

(** The chat request of the specification for the summary: system role
    without the final period, template and content separated by a space. *)
Definition spec_summary_messages (content : string) : list (string * string) :=
  [("system", "You are a helpful AI assistant");
   ("user", "Summarize the following text concisely: " ++ content)].

(** The three instructions of the code, each followed by a blank line and
    the content. *)
Definition summary_instruction : string :=
  "Summarize the following text concisely:".
Definition sentiment_instruction : string :=
  "What is the sentiment of the following text (positive, negative, neutral)? Just provide the sentiment word.".
Definition keywords_instruction : string :=
  "Extract 5-10 key keywords from the following text, separated by commas. Only provide the keywords.".

Definition code_chat_request (instruction content : string) : chat_request :=
  {| model := "gpt-3.5-turbo";
     messages := [("system", "You are a helpful AI assistant.");
                  ("user", instruction ++ nl ++ nl ++ content)];
     temperature := 7 # 10;
     max_tokens := 500 |}.

(** ** A reader for the store's array literals *)

(** Where the reader stands in a literal: before the opening brace, right
    after it, after a comma, inside a quoted element (with the characters
    read so far), right after a backslash, after a closing quote, and after
    the closing brace. [acc] holds the elements already read. *)
Inductive pg_state : Type :=
  | PgStart
  | PgOpen
  | PgElem (acc : list string)
  | PgQuoted (acc : list string) (cur : string)
  | PgEscaped (acc : list string) (cur : string)
  | PgAfter (acc : list string)
  | PgDone (acc : list string).

(** Modelled from the spec: the store's deserializer of array literals is
    not part of the repository. One character of the array input syntax:
    elements stand in double quotes, separated by commas, between braces,
    and inside an element a backslash makes the next character stand for
    itself. *)
Definition pg_step (st : pg_state) (c : ascii) : option pg_state :=
  match st with
  | PgStart => if Ascii.eqb c "{" then Some PgOpen else None
  | PgOpen =>
      if Ascii.eqb c "}" then Some (PgDone [])
      else if Ascii.eqb c dquote then Some (PgQuoted [] "")
      else None
  | PgElem acc => if Ascii.eqb c dquote then Some (PgQuoted acc "") else None
  | PgQuoted acc cur =>
      if Ascii.eqb c dquote then Some (PgAfter (acc ++ [cur])%list)
      else if Ascii.eqb c backslash then Some (PgEscaped acc cur)
      else Some (PgQuoted acc (cur ++ String c ""))
  | PgEscaped acc cur => Some (PgQuoted acc (cur ++ String c ""))
  | PgAfter acc =>
      if Ascii.eqb c comma then Some (PgElem acc)
      else if Ascii.eqb c "}" then Some (PgDone acc)
      else None
  | PgDone _ => None
  end.

Fixpoint pg_run (st : pg_state) (s : string) : option (list string) :=
  match s with
  | EmptyString =>
      match st with
      | PgDone acc => Some acc
      | _ => None
      end
  | String c r =>
      match pg_step st c with
      | Some st' => pg_run st' r
      | None => None
      end
  end.

(** Modelled from the spec: the store's deserializer of array literals is
    not part of the repository. This reader takes the fragment of the
    store's array input syntax that the serializer writes, all elements
    quoted; any other text gives [None]. *)
Definition pg_array_read (literal : string) : option (list string) :=
  pg_run PgStart literal.

(** ** Sample collaborators *)

Definition empty_world : world := World [] [] [].

Definition healthy_db : db_oracle :=
  DbOracle None None None (FetchRow 1) None None None None.

(** A store that refuses the connection. *)
Definition unreachable_db : db_oracle :=
  DbOracle (Some (Exn PsycopgError "could not connect to server"))
           None None (FetchRow 1) None None None None.

(** A connection on which [cursor()] raises. *)
Definition no_cursor_db : db_oracle :=
  DbOracle None (Some (Exn PsycopgError "connection already closed"))
           None (FetchRow 1) None None None None.

(** A service that answers every request with the same text. *)
Definition constant_chat (answer : string) : chat_request -> chat_outcome :=
  fun _ => ChatResponse [Some answer].

(** A service that fails on the sentiment request of [text] only. *)
Definition sentiment_down (text : string) : chat_request -> chat_outcome :=
  fun r =>
    if String.eqb (snd (nth 1 (messages r) ("", "")))
                  (user_prompt text "sentiment")
    then ChatRaise (Exn OtherException "Request timed out.")
    else if String.eqb (snd (nth 1 (messages r) ("", "")))
                       (user_prompt text "keywords")
    then ChatResponse [Some "ml, data ,  ,ai"]
    else ChatResponse [Some " A short note. "].

(** The reply a route builds from what persistence answered; an exception
    that escapes persistence escapes the route. *)
Definition reply_with (reply : bool -> response) (m : M bool) : M response :=
  saved <- m ;; ret (reply saved).

(** The three chat events of the enrichment of a content. *)
Definition enrichment_events (content : string) : list event :=
  [EvChat (chat_request_for content "summary");
   EvChat (chat_request_for content "sentiment");
   EvChat (chat_request_for content "keywords")].

(** ** Notions on strings used by the keyword properties *)

Fixpoint all_space (s : string) : bool :=
  match s with
  | EmptyString => true
  | String c r => isspace c && all_space r
  end.

Definition first_char (s : string) : option ascii :=
  match s with
  | EmptyString => None
  | String c _ => Some c
  end.

Fixpoint last_char (s : string) : option ascii :=
  match s with
  | EmptyString => None
  | String c EmptyString => Some c
  | String _ r => last_char r
  end.

(** No whitespace at this end of a string (an empty string has none). *)
Definition clean_edge (o : option ascii) : bool :=
  match o with
  | None => true
  | Some c => negb (isspace c)
  end.

(** Whitespace neither in front nor at the back. *)
Definition trimmed (s : string) : bool :=
  clean_edge (first_char s) && clean_edge (last_char s).

(** A keyword as the parser delivers it: not empty, trimmed, free of commas. *)
Definition well_formed_keyword (k : string) : bool :=
  truthy k && trimmed k && negb (contains comma k).

(** Keywords that hold no backslash: the serializer leaves a backslash as
    it is, and the store's reader takes it for an escape. *)
Definition no_backslash (keywords : list string) : bool :=
  forallb (fun k => negb (contains backslash k)) keywords.

(** The escape of one keyword: a backslash in front of every double quote. *)
Definition escape_quotes (k : string) : string :=
  replace dquote (String backslash (String dquote "")) k.

(** ** Notions for the further properties *)

(** A text made of commas and whitespace only. *)
Fixpoint only_separators (s : string) : bool :=
  match s with
  | EmptyString => true
  | String c r => (isspace c || Ascii.eqb c comma) && only_separators r
  end.

Fixpoint count_char (c : ascii) (s : string) : nat :=
  match s with
  | EmptyString => 0
  | String x r => (if Ascii.eqb x c then 1 else 0) + count_char c r
  end.

Definition is_nil {A} (l : list A) : bool :=
  match l with
  | [] => true
  | _ :: _ => false
  end.

(** A store whose cursor can be opened and on which rolling back and
    releasing cursor and connection never raise; the insert, the read-back
    and the commit may still fail. *)
Definition store_safe (o : db_oracle) : bool :=
  match cursor_raises o, rollback_raises o, cursor_close_raises o, conn_close_raises o with
  | None, None, None, None => true
  | _, _, _, _ => false
  end.

Definition is_connect (ev : event) : bool :=
  match ev with EvConnect => true | _ => false end.

Definition is_execute (ev : event) : bool :=
  match ev with EvExecute _ => true | _ => false end.

Definition is_commit (ev : event) : bool :=
  match ev with EvCommit => true | _ => false end.

(** The status of what a route gave, when it gave a reply. *)
Definition status_of (r : result response) : option nat :=
  match r with
  | Ret (_, status) => Some status
  | Raise _ => None
  end.

(** A store that takes the connection and refuses the insert. *)
Definition insert_refused_db : db_oracle :=
  DbOracle None None (Some (Exn PsycopgError "value too long")) (FetchRow 1)
           None None None None.

(** A store that commits and then fails to close the cursor. *)
Definition close_fails_db : db_oracle :=
  DbOracle None None None (FetchRow 1) None None
           (Some (Exn PsycopgError "connection already closed")) None.

(** A service that fails on the keywords request of [text] only. *)
Definition keywords_down (text : string) : chat_request -> chat_outcome :=
  fun r =>
    if String.eqb (snd (nth 1 (messages r) ("", "")))
                  (user_prompt text "keywords")
    then ChatRaise (Exn OtherException "Rate limit reached, retry in 20s")
    else ChatResponse [Some "fine"].

(** * Properties *)

(** ** Strings *)

Lemma append_empty_r (s : string) : s ++ "" = s.
Proof. induction s as [|c s IH]; simpl; [reflexivity | now rewrite IH]. Qed.

Lemma append_assoc (a b c : string) : (a ++ b) ++ c = a ++ (b ++ c).
Proof. induction a as [|x a IH]; simpl; [reflexivity | now rewrite IH]. Qed.

Lemma startswith_append (p s : string) : startswith p (p ++ s) = true.
Proof.
  unfold startswith. induction p as [|a p IH]; simpl.
  - destruct s; reflexivity.
  - destruct (ascii_dec a a) as [_|Hne]; [exact IH | now elim Hne].
Qed.

Lemma all_space_app (a b : string) :
  all_space (a ++ b) = all_space a && all_space b.
Proof.
  induction a as [|c a IH]; simpl; [reflexivity|].
  rewrite IH. now rewrite andb_assoc.
Qed.

Lemma lstrip_spec (s : string) :
  exists ws, s = ws ++ lstrip s /\ all_space ws = true
             /\ clean_edge (first_char (lstrip s)) = true.
Proof.
  induction s as [|c s (ws & Hs & Hws & Hclean)]; simpl.
  - exists ""; auto.
  - destruct (isspace c) eqn:Hc.
    + exists (String c ws); simpl. rewrite Hc, Hws. repeat split; auto.
      now rewrite <- Hs.
    + exists ""; simpl. now rewrite Hc.
Qed.

Lemma rstrip_spec (s : string) :
  exists ws, s = rstrip s ++ ws /\ all_space ws = true
             /\ clean_edge (last_char (rstrip s)) = true.
Proof.
  induction s as [|c s (ws & Hs & Hws & Hclean)]; simpl.
  - exists ""; auto.
  - destruct (rstrip s) as [|a r'] eqn:Hr.
    + simpl in Hs. subst s.
      destruct (isspace c) eqn:Hc; simpl.
      * exists (String c ws); simpl. now rewrite Hc, Hws.
      * exists ws. now rewrite Hc.
    + exists ws. split; [|split; auto].
      simpl. now rewrite Hs at 1.
Qed.

Lemma rstrip_first (s : string) :
  rstrip s = "" \/ first_char (rstrip s) = first_char s.
Proof.
  destruct s as [|c s]; simpl; [now left|].
  destruct (rstrip s); [destruct (isspace c)|]; auto.
Qed.

(** [strip] removes whitespace at both ends, and nothing else. *)
Lemma strip_spec (s : string) :
  exists front back,
    s = front ++ strip s ++ back
    /\ all_space front = true /\ all_space back = true
    /\ trimmed (strip s) = true.
Proof.
  unfold strip, trimmed.
  destruct (lstrip_spec s) as (front & Hs & Hfront & Hclean).
  destruct (rstrip_spec (lstrip s)) as (back & Hl & Hback & Hlast).
  exists front, back. repeat split; auto.
  - now rewrite <- Hl.
  - rewrite Hlast, andb_true_r.
    destruct (rstrip_first (lstrip s)) as [H|H]; rewrite H; auto.
Qed.

Lemma contains_lstrip (c : ascii) (s : string) :
  contains c s = false -> contains c (lstrip s) = false.
Proof.
  induction s as [|x s IH]; simpl; auto.
  intros H. apply orb_false_iff in H as [Hx Hs].
  destruct (isspace x); simpl; auto. now rewrite Hx, Hs.
Qed.

Lemma contains_rstrip (c : ascii) (s : string) :
  contains c s = false -> contains c (rstrip s) = false.
Proof.
  induction s as [|x s IH]; simpl; auto.
  intros H. apply orb_false_iff in H as [Hx Hs].
  specialize (IH Hs).
  destruct (rstrip s); [destruct (isspace x)|]; simpl in *; auto.
  - now rewrite Hx.
  - now rewrite Hx, IH.
Qed.

Lemma contains_strip (c : ascii) (s : string) :
  contains c s = false -> contains c (strip s) = false.
Proof. intros H. now apply contains_rstrip, contains_lstrip. Qed.

Lemma split_not_nil (sep : ascii) (s : string) : split sep s <> [].
Proof.
  destruct s as [|c s]; simpl; [discriminate|].
  destruct (Ascii.eqb c sep); [discriminate|].
  destruct (split sep s); discriminate.
Qed.

(** Joining the pieces with the separator gives the text back. *)
Lemma join_split (sep : ascii) (s : string) :
  join (String sep "") (split sep s) = s.
Proof.
  induction s as [|c s IH]; simpl; [reflexivity|].
  destruct (Ascii.eqb_spec c sep) as [->|Hne].
  - pose proof (split_not_nil sep s) as Hnil.
    destruct (split sep s) as [|p ps]; [contradiction|].
    simpl in *. now rewrite IH.
  - pose proof (split_not_nil sep s) as Hnil.
    destruct (split sep s) as [|p ps]; [contradiction|].
    destruct ps as [|p' ps]; simpl in *; now rewrite IH.
Qed.

(** No piece holds the separator. *)
Lemma split_pieces (sep : ascii) (s : string) :
  forallb (fun p => negb (contains sep p)) (split sep s) = true.
Proof.
  induction s as [|c s IH]; simpl; [reflexivity|].
  destruct (Ascii.eqb c sep) eqn:Hc; simpl; [exact IH|].
  destruct (split sep s) as [|p ps]; simpl in *.
  - now rewrite Hc.
  - rewrite Hc. exact IH.
Qed.

(** ** Keyword parsing *)

Lemma map_filter_comm {A B} (f : A -> B) (p : B -> bool) (l : list A) :
  map f (filter (fun x => p (f x)) l) = filter p (map f l).
Proof.
  induction l as [|x l IH]; simpl; [reflexivity|].
  destruct (p (f x)); simpl; now rewrite IH.
Qed.

Lemma parse_keywords_refines (raw : string) :
  parse_keywords_response raw = spec_parse_keywords raw.
Proof. apply map_filter_comm. Qed.

Lemma parse_keywords_well_formed (raw : string) :
  forallb well_formed_keyword (parse_keywords_response raw) = true.
Proof.
  rewrite parse_keywords_refines. unfold spec_parse_keywords.
  pose proof (split_pieces comma raw) as Hpieces.
  induction (split comma raw) as [|p ps IH]; simpl in *; [reflexivity|].
  apply andb_true_iff in Hpieces as [Hp Hps].
  destruct (truthy (strip p)) eqn:Ht; simpl; [|now apply IH].
  rewrite (IH Hps), andb_true_r.
  unfold well_formed_keyword. rewrite Ht.
  destruct (strip_spec p) as (_ & _ & _ & _ & _ & Htrim). rewrite Htrim.
  apply negb_true_iff in Hp. now rewrite (contains_strip _ _ Hp).
Qed.

(** C7: [parse_keywords_response] is the specification's parsing: it splits
    on commas, trims each piece, drops the empty ones and keeps the order,
    without changing case or removing duplicates; ["ml, data ,  ,ai"] gives
    [["ml"; "data"; "ai"]]; and no keyword it returns is empty (each is
    trimmed and free of commas as well). *)
Theorem C7_parse_keywords :
  (forall raw, parse_keywords_response raw
               = filter truthy (map strip (split comma raw)))
  /\ (forall raw, join "," (split comma raw) = raw)
  /\ parse_keywords_response "ml, data ,  ,ai" = ["ml"; "data"; "ai"]
  /\ parse_keywords_response "Ml,ml , Ml" = ["Ml"; "ml"; "Ml"]
  /\ (forall raw, forallb truthy (parse_keywords_response raw) = true)
  /\ (forall raw, forallb well_formed_keyword (parse_keywords_response raw) = true).
Proof.
  split; [exact parse_keywords_refines|].
  split; [exact (join_split comma)|].
  split; [reflexivity|].
  split; [reflexivity|].
  split; [|exact parse_keywords_well_formed].
  intros raw. pose proof (parse_keywords_well_formed raw) as H.
  induction (parse_keywords_response raw) as [|k ks IH]; simpl in *; [reflexivity|].
  apply andb_true_iff in H as [Hk Hks]. rewrite (IH Hks), andb_true_r.
  unfold well_formed_keyword in Hk.
  apply andb_true_iff in Hk as [Hk _]. now apply andb_true_iff in Hk as [Hk _].
Qed.

(** ** Keyword serialization *)

Lemma pg_quote_unfold (k : string) (rest : string) :
  pg_quote k ++ rest = String dquote (escape_quotes k ++ String dquote rest).
Proof.
  unfold pg_quote, escape_quotes. simpl. now rewrite append_assoc.
Qed.

(** Reading an escaped keyword up to its closing quote gives the keyword. *)
Lemma pg_run_quoted (k : string) :
  contains backslash k = false ->
  forall acc cur rest,
    pg_run (PgQuoted acc cur) (escape_quotes k ++ String dquote rest)
    = pg_run (PgAfter (acc ++ [(cur ++ k)%string])%list) rest.
Proof.
  unfold escape_quotes.
  induction k as [|x k IH]; intros Hk acc cur rest; simpl.
  - now rewrite append_empty_r.
  - simpl in Hk. apply orb_false_iff in Hk as [Hx Hk].
    destruct (Ascii.eqb_spec x dquote) as [->|Hq]; simpl.
    + rewrite (IH Hk). now rewrite append_assoc.
    + apply Ascii.eqb_neq in Hq. rewrite Hq, Hx.
      rewrite (IH Hk). now rewrite append_assoc.
Qed.

Lemma join_quoted_unfold (k : string) (ks : list string) :
  join "," (map pg_quote (k :: ks)) ++ "}"
  = String dquote (escape_quotes k ++ String dquote
      (match ks with
       | [] => "}"
       | _ => "," ++ join "," (map pg_quote ks) ++ "}"
       end)).
Proof.
  destruct ks as [|k' ks].
  - simpl. apply pg_quote_unfold.
  - change (join "," (map pg_quote (k :: k' :: ks)))
      with (pg_quote k ++ "," ++ join "," (map pg_quote (k' :: ks))).
    rewrite append_assoc, pg_quote_unfold. reflexivity.
Qed.

Lemma pg_run_elements (ks : list string) :
  forall k acc,
    no_backslash (k :: ks) = true ->
    pg_run (PgElem acc) (join "," (map pg_quote (k :: ks)) ++ "}")
    = Some (acc ++ k :: ks)%list.
Proof.
  induction ks as [|k' ks IH]; intros k acc H; simpl in H;
    apply andb_true_iff in H as [Hk Hks]; apply negb_true_iff in Hk;
    rewrite join_quoted_unfold; cbn [pg_run pg_step];
    change (Ascii.eqb dquote dquote) with true; cbv iota;
    rewrite (pg_run_quoted k Hk).
  - reflexivity.
  - cbn [pg_run pg_step append]. change (Ascii.eqb "," comma) with true. cbv iota.
    rewrite (IH k' _ Hks). now rewrite <- app_assoc.
Qed.

(** The store's reader gives back every keyword list without backslashes. *)
Lemma pg_array_read_keywords (keywords : list string) :
  no_backslash keywords = true ->
  pg_array_read (keywords_pg_array keywords) = Some keywords.
Proof.
  intros H. unfold pg_array_read, keywords_pg_array.
  destruct keywords as [|k ks]; [reflexivity|].
  cbn [append pg_run pg_step]. change (Ascii.eqb "{" "{") with true. cbv iota.
  pose proof (pg_run_elements ks k [] H) as Hrun.
  rewrite join_quoted_unfold in *. cbn [pg_run pg_step] in *.
  change (Ascii.eqb dquote "}") with false.
  change (Ascii.eqb dquote dquote) with true in *. cbv iota in *.
  exact Hrun.
Qed.

Lemma pg_array_read_keywords_example :
  no_backslash ["machine learning"; "data"] = true
  /\ pg_array_read (keywords_pg_array ["machine learning"; "data"])
     = Some ["machine learning"; "data"].
Proof.
  split; [reflexivity|].
  apply (pg_array_read_keywords ["machine learning"; "data"]). reflexivity.
Defined.

(** A keyword with a backslash does not come back: the serializer does not
    escape it. *)
Example pg_array_read_backslash :
  pg_array_read (keywords_pg_array ["a\b"]) = Some ["ab"]
  /\ pg_array_read (keywords_pg_array ["a\"]) = None.
Proof. split; reflexivity. Qed.

(** C8: every keyword is written between double quotes with a backslash in
    front of each double quote it holds, the elements are joined by commas
    and put between braces; the two keywords a, double quote, b and c give
    the literal made of an opening brace, the quoted element a, backslash,
    double quote, b, a comma, the quoted element c and a closing brace; and
    the store's reader gives the two keywords back from that literal. *)
Theorem C8_keywords_serialization :
  (forall keywords,
      keywords_pg_array keywords
      = "{" ++ join ","
                 (map (fun k => quote_mark ++ escape_quotes k ++ quote_mark) keywords)
            ++ "}")
  /\ escape_quotes ("a" ++ quote_mark ++ "b") = "a\" ++ quote_mark ++ "b"
  /\ keywords_pg_array ["a" ++ quote_mark ++ "b"; "c"]
     = "{" ++ quote_mark ++ "a\" ++ quote_mark ++ "b" ++ quote_mark ++ ","
           ++ quote_mark ++ "c" ++ quote_mark ++ "}"
  /\ pg_array_read ("{" ++ quote_mark ++ "a\" ++ quote_mark ++ "b" ++ quote_mark
                        ++ "," ++ quote_mark ++ "c" ++ quote_mark ++ "}")
     = Some ["a" ++ quote_mark ++ "b"; "c"].
Proof.
  split; [|repeat split; reflexivity].
  intros keywords. reflexivity.
Qed.

(** ** Enrichment *)

Lemma logged_logged (w : world) (a b : list event) :
  logged (logged w a) b = logged w (a ++ b).
Proof. unfold logged; simpl. now rewrite <- app_assoc. Qed.

Lemma new_events_logged (w : world) (evs : list event) :
  new_events w (logged w evs) = evs.
Proof.
  unfold new_events, logged; simpl.
  rewrite skipn_app, skipn_all, Nat.sub_diag. reflexivity.
Qed.

Lemma chat_calls_app (a b : list event) :
  chat_calls (a ++ b) = (chat_calls a ++ chat_calls b)%list.
Proof.
  induction a as [|ev a IH]; simpl; [reflexivity|].
  destruct ev; simpl; now rewrite IH.
Qed.

Lemma chat_calls_store (evs : list event) :
  forallb is_store_event evs = true -> chat_calls evs = [].
Proof.
  induction evs as [|ev evs IH]; simpl; [reflexivity|].
  destruct ev; simpl; auto; discriminate.
Qed.

(** [get_ai_analysis] always returns: it makes one chat request and gives
    the stripped content, or the error text when anything went wrong. *)
Lemma get_ai_analysis_run (E : env) (text_input prompt_type : string) (w : world) :
  get_ai_analysis E text_input prompt_type w
  = (Ret (analysis E text_input prompt_type),
     logged w [EvChat (chat_request_for text_input prompt_type)]).
Proof.
  unfold get_ai_analysis, analysis, analysis_of, openai_chat_create,
    attempt, bind, log, logged.
  destruct (chat E (chat_request_for text_input prompt_type))
    as [e|[|[s|] choices]]; reflexivity.
Qed.

(** ** Persistence *)

(** Unfolds a run of [save_note_to_database] on an oracle and follows it
    call by call, splitting on what the next call of the store does. *)
Ltac unfold_store :=
  unfold save_note_to_database, get_supabase_connection, psycopg2_connect,
    conn_cursor, cursor_execute, cursor_fetchone, conn_commit, conn_rollback,
    cursor_close, conn_close, call, attempt, bind, log, modify, ret, resume, raise
    in *.

Ltac next_call :=
  match goal with
  | |- context [match ?x with _ => _ end] => is_var x; destruct x
  | H : context [match ?x with _ => _ end] |- _ => is_var x; destruct x
  end.

Ltac case_oracle o :=
  destruct o as [connect cursor execute fetch commit rollback cursor_close conn_close];
  unfold_store; cbn -[skipn keywords_pg_array] in *;
  repeat (next_call; cbn -[skipn keywords_pg_array] in *).

(** What a store that accepts the row does: one transaction, committed. *)
Lemma save_note_to_database_ok (E : env) (c s se : string) (ks : list string)
      (u : option string) (w : world) :
  store_ok (db E) = true ->
  save_note_to_database E c s se ks u w
  = (Ret true,
     World (trace w ++ store_calls (Row c s se (keywords_pg_array ks) u))
           (table w ++ [Row c s se (keywords_pg_array ks) u]) []).
Proof.
  destruct E as [ch o]. unfold store_ok. simpl db.
  destruct o as [connect cursor execute fetch commit rollback cursor_close conn_close].
  simpl.
  destruct connect, cursor, execute, fetch, commit, cursor_close, conn_close;
    try discriminate.
  intros _. unfold save_note_to_database, get_supabase_connection, psycopg2_connect,
    conn_cursor, cursor_execute, cursor_fetchone, conn_commit, cursor_close,
    conn_close, call, attempt, bind, log, modify, ret; simpl.
  rewrite <- !app_assoc. reflexivity.
Qed.

(** Without a connection nothing else is called and nothing is written. *)
Lemma save_note_to_database_unreachable (E : env) (c s se : string)
      (ks : list string) (u : option string) (w : world) (e : exn) :
  connect_raises (db E) = Some e ->
  save_note_to_database E c s se ks u w = (Ret false, logged w [EvConnect]).
Proof.
  intros H. unfold save_note_to_database, get_supabase_connection,
    psycopg2_connect, call, attempt, bind, log, logged.
  rewrite H. reflexivity.
Qed.

(** [true] comes only with a commit that went through, and with the row. *)
Lemma save_note_to_database_true (E : env) (c s se : string) (ks : list string)
      (u : option string) (w w' : world) :
  save_note_to_database E c s se ks u w = (Ret true, w') ->
  commit_raises (db E) = None
  /\ In EvCommit (new_events w w')
  /\ persisted w w' (Row c s se (keywords_pg_array ks) u).
Proof.
  destruct E as [ch o]. unfold persisted, new_events. intros H.
  case_oracle o; inversion H; subst; clear H; cbn [trace table];
    rewrite <- ?app_assoc, skipn_app, skipn_all, Nat.sub_diag; simpl; auto 10.
Qed.

(** Persistence reports success exactly on the stores of [store_ok],
    whatever the note is. *)
Lemma save_note_to_database_true_iff (E : env) (c s se : string) (ks : list string)
      (u : option string) (w : world) :
  fst (save_note_to_database E c s se ks u w) = Ret true <-> store_ok (db E) = true.
Proof.
  split.
  - destruct E as [ch o]. unfold store_ok. intros H.
    case_oracle o; solve [reflexivity | discriminate H].
  - intros H. now rewrite (save_note_to_database_ok E c s se ks u w H).
Qed.

(** What persistence reports depends on the store alone, not on the note. *)
Lemma save_note_to_database_verdict (E : env) (c s se : string) (ks : list string)
      (u : option string) (w : world) (c' s' se' : string) (ks' : list string)
      (u' : option string) (w' : world) :
  fst (save_note_to_database E c s se ks u w)
  = fst (save_note_to_database E c' s' se' ks' u' w').
Proof.
  destruct E as [ch o]. case_oracle o; reflexivity.
Qed.

(** Every run starts by asking for a connection, calls only the store, and
    changes the table only by adding the row. *)
Lemma save_note_to_database_events (E : env) (c s se : string) (ks : list string)
      (u : option string) (w : world) :
  exists evs,
    trace (snd (save_note_to_database E c s se ks u w))
    = (trace w ++ EvConnect :: evs)%list
    /\ forallb is_store_event evs = true
    /\ (table (snd (save_note_to_database E c s se ks u w)) = table w
        \/ persisted w (snd (save_note_to_database E c s se ks u w))
                     (Row c s se (keywords_pg_array ks) u)).
Proof.
  destruct E as [ch o]. unfold persisted.
  case_oracle o; rewrite <- ?app_assoc; simpl;
    eexists; (split; [reflexivity|split; [reflexivity|auto]]).
Qed.

(** When the insert, the read-back or the commit fails on a connection whose
    cursor was opened, and rolling back and releasing go through, the
    transaction is rolled back, the table is as before, and the answer is
    [false]. *)
Lemma save_note_to_database_rolls_back (E : env) (c s se : string)
      (ks : list string) (u : option string) (w : world) :
  connect_raises (db E) = None ->
  cursor_raises (db E) = None ->
  rollback_raises (db E) = None ->
  cursor_close_raises (db E) = None ->
  conn_close_raises (db E) = None ->
  store_ok (db E) = false ->
  fst (save_note_to_database E c s se ks u w) = Ret false
  /\ In EvRollback (new_events w (snd (save_note_to_database E c s se ks u w)))
  /\ table (snd (save_note_to_database E c s se ks u w)) = table w.
Proof.
  destruct E as [ch o]. unfold store_ok, new_events.
  intros Hconnect Hcursor Hrollback Hcursor_close Hconn_close Hnot.
  case_oracle o; try discriminate; cbn [trace table];
    rewrite <- ?app_assoc, skipn_app, skipn_all, Nat.sub_diag; simpl; auto 10.
Qed.

(** ** The routes, from validation to the reply *)

Lemma reply_with_if (reply : bool -> response) (m : M bool) (a b : response) (w : world) :
  reply true = a -> reply false = b ->
  bind m (fun saved => if saved then ret a else ret b) w = reply_with reply m w.
Proof.
  intros <- <-. unfold reply_with, bind.
  destruct (m w) as [[[]|e] w']; reflexivity.
Qed.

(** An SMS with a body that is not blank is enriched by three chat requests
    on the body, then handed to persistence, which decides the reply. *)
Lemma sms_webhook_pipeline (E : env) (form : list (string * string)) (w : world) :
  truthy (strip (get_default form "Body" "")) = true ->
  sms_webhook E form w
  = reply_with sms_reply
      (save_note_to_database E
         (get_default form "Body" "")
         (analysis E (get_default form "Body" "") "summary")
         (analysis E (get_default form "Body" "") "sentiment")
         (parse_keywords_response (analysis E (get_default form "Body" "") "keywords"))
         (Some (get_default form "From" "Unknown")))
      (logged w (enrichment_events (get_default form "Body" ""))).
Proof.
  intros H. unfold sms_webhook. rewrite H. cbn [negb].
  unfold bind at 1. rewrite get_ai_analysis_run.
  unfold bind at 1. rewrite get_ai_analysis_run.
  unfold bind at 1. rewrite get_ai_analysis_run.
  rewrite !logged_logged. cbn [app].
  apply reply_with_if; reflexivity.
Qed.

(** A web clip with a url and a text that is not blank. *)
Lemma web_clip_webhook_pipeline (E : env) (data : list (string * string))
      (url text : string) (w : world) :
  get data "url" = Some url -> truthy url = true ->
  get data "text" = Some text -> truthy (strip text) = true ->
  let full_content := "Web Clip from " ++ url ++ ":" ++ nl ++ nl ++ text in
  web_clip_webhook E (WebClipRequest true data) w
  = reply_with web_clip_reply
      (save_note_to_database E full_content
         (analysis E full_content "summary")
         (analysis E full_content "sentiment")
         (parse_keywords_response (analysis E full_content "keywords"))
         (Some (web_clip_username (get data "username"))))
      (logged w (enrichment_events full_content)).
Proof.
  intros Hurl Hu Htext Ht full_content. unfold web_clip_webhook.
  cbn [is_json get_json negb]. rewrite Hurl, Htext. cbn [truthy_opt fmt].
  rewrite Hu. cbn [negb strip_method].
  unfold bind at 1. unfold bind at 1. unfold ret at 1. unfold ret at 1.
  rewrite Ht. cbn [negb]. fold full_content.
  unfold bind at 1. rewrite get_ai_analysis_run.
  unfold bind at 1. rewrite get_ai_analysis_run.
  unfold bind at 1. rewrite get_ai_analysis_run.
  rewrite !logged_logged. cbn [app].
  replace (if negb (truthy_opt (get data "username"))
           then Some "unknown_web_clipper" else get data "username")
    with (Some (web_clip_username (get data "username")))
    by (destruct (get data "username") as [[|c u]|]; reflexivity).
  apply reply_with_if; reflexivity.
Qed.

(** An email with a plain body that is not blank. *)
Lemma receive_email_pipeline (E : env) (form : list (string * string))
      (body_plain : string) (w : world) :
  get form "body-plain" = Some body_plain -> truthy (strip body_plain) = true ->
  let full_content := email_content (get form "subject") body_plain in
  receive_email E form w
  = reply_with email_reply
      (save_note_to_database E full_content
         (analysis E full_content "summary")
         (analysis E full_content "sentiment")
         (parse_keywords_response (analysis E full_content "keywords"))
         (get form "sender"))
      (logged w (enrichment_events full_content)).
Proof.
  intros Hbody Hb full_content. unfold receive_email.
  rewrite Hbody. cbn [strip_method fmt].
  unfold bind at 1. unfold ret at 1. rewrite Hb. cbn [negb].
  replace (if truthy_opt (get form "subject")
           then "Subject: " ++ fmt (get form "subject") ++ nl ++ nl ++ body_plain
           else body_plain)
    with full_content
    by (unfold full_content; destruct (get form "subject") as [[|c u]|]; reflexivity).
  unfold bind at 1. rewrite get_ai_analysis_run.
  unfold bind at 1. rewrite get_ai_analysis_run.
  unfold bind at 1. rewrite get_ai_analysis_run.
  rewrite !logged_logged. cbn [app].
  apply reply_with_if; reflexivity.
Qed.

(** On a store that accepts the row, the reply is the success reply and the
    row is in the table. *)
Lemma reply_with_ok (E : env) (reply : bool -> response) (c s se : string)
      (ks : list string) (u : option string) (w : world) :
  store_ok (db E) = true ->
  reply_with reply (save_note_to_database E c s se ks u) w
  = (Ret (reply true),
     World (trace w ++ store_calls (Row c s se (keywords_pg_array ks) u))
           (table w ++ [Row c s se (keywords_pg_array ks) u]) []).
Proof.
  intros H. unfold reply_with, bind.
  now rewrite (save_note_to_database_ok E c s se ks u w H).
Qed.

(** Without a connection the reply is the failure reply and no row is written. *)
Lemma reply_with_unreachable (E : env) (reply : bool -> response) (c s se : string)
      (ks : list string) (u : option string) (w : world) (e : exn) :
  connect_raises (db E) = Some e ->
  reply_with reply (save_note_to_database E c s se ks u) w
  = (Ret (reply false), logged w [EvConnect]).
Proof.
  intros H. unfold reply_with, bind.
  now rewrite (save_note_to_database_unreachable E c s se ks u w e H).
Qed.

Lemma new_events_app (w w' : world) (evs : list event) :
  trace w' = (trace w ++ evs)%list -> new_events w w' = evs.
Proof.
  intros H. unfold new_events. rewrite H.
  rewrite skipn_app, skipn_all, Nat.sub_diag. reflexivity.
Qed.

Lemma reply_with_world (reply : bool -> response) (m : M bool) (w : world) :
  snd (reply_with reply m w) = snd (m w).
Proof.
  unfold reply_with, bind. destruct (m w) as [[b|e] w']; reflexivity.
Qed.

(** Whatever the service and the store do, a valid request makes the three
    chat requests, then asks for a connection, then calls only the store. *)
Lemma route_events (E : env) (reply : bool -> response) (c s se : string)
      (ks : list string) (u : option string) (w : world) (enrichment : list event) :
  exists evs,
    new_events w (snd (reply_with reply (save_note_to_database E c s se ks u)
                                  (logged w enrichment)))
    = (enrichment ++ EvConnect :: evs)%list
    /\ forallb is_store_event evs = true.
Proof.
  rewrite reply_with_world.
  destruct (save_note_to_database_events E c s se ks u (logged w enrichment))
    as (evs & Htrace & Hstore & _).
  exists evs. split; [|exact Hstore].
  apply new_events_app. rewrite Htrace. simpl. now rewrite <- app_assoc.
Qed.

(** ** Enrichment failures (C1) *)

(** C1: when a chat request fails, [get_ai_analysis] returns the text
    ["Error: " ++ cause] instead of raising; whatever the three requests do,
    the route goes on to persistence, and what persistence reports does not
    depend on the fields of the note, so an error text in a field costs no
    success; when only the sentiment request fails, on a store where
    persistence succeeds, the SMS route answers with its success reply and
    the row written has the stripped summary, the parsed keywords, and a
    sentiment that starts with ["Error: "]. *)
Theorem C1_enrichment_failure_is_isolated :
  (forall E text prompt_type e w,
      chat E (chat_request_for text prompt_type) = ChatRaise e ->
      get_ai_analysis E text prompt_type w
      = (Ret ("Error: " ++ exn_str e),
         logged w [EvChat (chat_request_for text prompt_type)]))
  /\ (forall E form w,
        truthy (strip (get_default form "Body" "")) = true ->
        exists evs,
          new_events w (snd (sms_webhook E form w))
          = (enrichment_events (get_default form "Body" "") ++ EvConnect :: evs)%list)
  /\ (forall E c s k u w sentiment e,
        fst (save_note_to_database E c s ("Error: " ++ exn_str e) k u w)
        = fst (save_note_to_database E c s sentiment k u w))
  /\ (forall E form w s k e more more',
        truthy (strip (get_default form "Body" "")) = true ->
        chat E (chat_request_for (get_default form "Body" "") "summary")
          = ChatResponse (Some s :: more) ->
        chat E (chat_request_for (get_default form "Body" "") "sentiment")
          = ChatRaise e ->
        chat E (chat_request_for (get_default form "Body" "") "keywords")
          = ChatResponse (Some k :: more') ->
        store_ok (db E) = true ->
        exists w',
          sms_webhook E form w
          = (Ret (Twiml "Your SMS note has been processed and saved to Micro-Atlas! 🧠", 200), w')
          /\ persisted w w'
               (Row (get_default form "Body" "")
                    (strip s)
                    ("Error: " ++ exn_str e)
                    (keywords_pg_array (parse_keywords_response (strip k)))
                    (Some (get_default form "From" "Unknown")))
          /\ startswith "Error: " ("Error: " ++ exn_str e) = true).
Proof.
  split; [|split; [|split]].
  - intros E text prompt_type e w H.
    rewrite get_ai_analysis_run. unfold analysis. now rewrite H.
  - intros E form w H. rewrite (sms_webhook_pipeline E form w H).
    destruct (route_events E sms_reply
                (get_default form "Body" "")
                (analysis E (get_default form "Body" "") "summary")
                (analysis E (get_default form "Body" "") "sentiment")
                (parse_keywords_response (analysis E (get_default form "Body" "") "keywords"))
                (Some (get_default form "From" "Unknown")) w
                (enrichment_events (get_default form "Body" "")))
      as (evs & Hev & _).
    now exists evs.
  - intros E c s k u w sentiment e. apply save_note_to_database_verdict.
  - intros E form w s k e more more' H Hs He Hk Hdb.
    rewrite (sms_webhook_pipeline E form w H).
    rewrite (reply_with_ok E sms_reply _ _ _ _ _ _ Hdb).
    unfold analysis. rewrite Hs, He, Hk. cbn [analysis_of].
    eexists. split; [reflexivity|]. split; [reflexivity|].
    apply startswith_append.
Qed.

(** C1 at an SMS whose sentiment request times out. *)
Lemma C1_enrichment_failure_is_isolated_witness :
  let E := Env (sentiment_down "hello") healthy_db in
  let form := [("From", "+15550100"); ("Body", "hello")] in
  get_ai_analysis E "hello" "sentiment" empty_world
  = (Ret "Error: Request timed out.",
     logged empty_world [EvChat (chat_request_for "hello" "sentiment")])
  /\ (exists evs,
        new_events empty_world (snd (sms_webhook E form empty_world))
        = (enrichment_events "hello" ++ EvConnect :: evs)%list)
  /\ (exists w',
        sms_webhook E form empty_world
        = (Ret (Twiml "Your SMS note has been processed and saved to Micro-Atlas! 🧠", 200), w')
        /\ persisted empty_world w'
             (Row "hello" "A short note." "Error: Request timed out."
                  (keywords_pg_array ["ml"; "data"; "ai"]) (Some "+15550100"))
        /\ startswith "Error: " "Error: Request timed out." = true).
Proof.
  intros E form.
  destruct C1_enrichment_failure_is_isolated as (Hcall & Hgoes & _ & Hsentiment).
  split; [|split].
  - apply (Hcall E "hello" "sentiment" (Exn OtherException "Request timed out.")).
    reflexivity.
  - apply (Hgoes E form empty_world). reflexivity.
  - apply (Hsentiment E form empty_world " A short note. " "ml, data ,  ,ai"
                      (Exn OtherException "Request timed out.") [] []);
      reflexivity.
Defined.

(** ** Persistence failures (C2) *)

(** The parts of the contract that hold: no connection gives [false] and
    nothing written; [true] comes only after the commit. *)
Lemma save_note_to_database_contract (E : env) (c s se : string)
      (ks : list string) (u : option string) (w : world) :
  (forall e, connect_raises (db E) = Some e ->
     save_note_to_database E c s se ks u w = (Ret false, logged w [EvConnect]))
  /\ (forall w', save_note_to_database E c s se ks u w = (Ret true, w') ->
        commit_raises (db E) = None /\ In EvCommit (new_events w w')).
Proof.
  split.
  - intros e H. now apply save_note_to_database_unreachable with e.
  - intros w' H. destruct (save_note_to_database_true E c s se ks u w w' H) as (? & ? & _).
    now split.
Qed.

(** C2, where the code departs from it: an exception during the operation
    can leave [save_note_to_database] as an exception instead of the answer
    [false]. When [conn.cursor()] raises, the handler rolls back, but the
    [finally] clause then reads the local [cur], which was never bound, and
    the function raises [UnboundLocalError] (and does not close the
    connection). When [cur.execute] raises and [conn.rollback()], called by
    the handler, raises in turn, as it does on a connection the server has
    dropped, that second exception leaves the function after the [finally]
    clause has released cursor and connection; nothing was rolled back. *)
Theorem C2_failures_escape :
  (forall ch e execute fetch commit cursor_close conn_close c s se ks u w,
      save_note_to_database
        (Env ch (DbOracle None (Some e) execute fetch commit None cursor_close conn_close))
        c s se ks u w
      = (Raise (Exn UnboundLocalError
           "cannot access local variable 'cur' where it is not associated with a value"),
         World (trace w ++ [EvConnect; EvCursor; EvRollback]) (table w) []))
  /\ (forall ch e e' fetch commit c s se ks u w,
        save_note_to_database
          (Env ch (DbOracle None None (Some e) fetch commit (Some e') None None))
          c s se ks u w
        = (Raise e',
           World (trace w ++ [EvConnect; EvCursor;
                              EvExecute (Row c s se (keywords_pg_array ks) u);
                              EvRollback; EvCursorClose; EvConnClose])
                 (table w) [])).
Proof.
  split; intros;
    unfold save_note_to_database, get_supabase_connection, psycopg2_connect,
      conn_cursor, cursor_execute, conn_rollback, cursor_close, conn_close,
      call, attempt, bind, log, modify, ret, raise, resume; simpl;
    rewrite <- !app_assoc; reflexivity.
Qed.

(** ** Validation failures (C3, C4) *)

(** A web clip without a url (absent or empty) is refused with the 400
    reply, before anything is called. *)
Lemma web_clip_webhook_missing_url (E : env) (data : list (string * string)) (w : world) :
  truthy_opt (get data "url") = false ->
  web_clip_webhook E (WebClipRequest true data) w
  = (Ret (Json [("error", "Missing 'url' or 'text' in request body")], 400), w).
Proof.
  intros H. unfold web_clip_webhook. cbn [is_json get_json negb].
  rewrite H. reflexivity.
Qed.

(** So is a web clip whose text is there but blank. *)
Lemma web_clip_webhook_blank_text (E : env) (data : list (string * string))
      (text : string) (w : world) :
  get data "text" = Some text -> truthy (strip text) = false ->
  web_clip_webhook E (WebClipRequest true data) w
  = (Ret (Json [("error", "Missing 'url' or 'text' in request body")], 400), w).
Proof.
  intros Htext Ht. unfold web_clip_webhook. cbn [is_json get_json negb].
  rewrite Htext. cbn [strip_method].
  destruct (truthy_opt (get data "url")); cbn [negb]; [|reflexivity].
  unfold bind, ret. rewrite Ht. reflexivity.
Qed.

(** A request that is not JSON gets the other 400 reply. *)
Lemma web_clip_webhook_not_json (E : env) (data : list (string * string)) (w : world) :
  web_clip_webhook E (WebClipRequest false data) w
  = (Ret (Json [("error", "Request must be JSON")], 400), w).
Proof. reflexivity. Qed.

(** C3, where the code departs from it: a web clip with a url and no text
    makes the handler call [strip] on [None]; it raises [AttributeError]
    instead of returning the 400 reply (nothing is enriched or persisted). *)
Theorem C3_web_clip_without_text_raises :
  forall E w,
    web_clip_webhook E
      (WebClipRequest true [("url", "https://example.org/post"); ("username", "ana")]) w
    = (Raise (Exn AttributeError "'NoneType' object has no attribute 'strip'"), w).
Proof. reflexivity. Qed.

(** The same for every web clip with a url that is not empty and no text. *)
Lemma web_clip_webhook_missing_text (E : env) (data : list (string * string)) (w : world) :
  truthy_opt (get data "url") = true -> get data "text" = None ->
  web_clip_webhook E (WebClipRequest true data) w
  = (Raise (Exn AttributeError "'NoneType' object has no attribute 'strip'"), w).
Proof.
  intros Hurl Htext. unfold web_clip_webhook. cbn [is_json get_json negb].
  rewrite Hurl, Htext. reflexivity.
Qed.

(** An email whose plain body is there but blank is refused with the 400
    reply, before anything is called. *)
Lemma receive_email_blank_body (E : env) (form : list (string * string))
      (body_plain : string) (w : world) :
  get form "body-plain" = Some body_plain -> truthy (strip body_plain) = false ->
  receive_email E form w = (Ret (Text "Missing email body", 400), w).
Proof.
  intros Hbody Hb. unfold receive_email. rewrite Hbody. cbn [strip_method].
  unfold bind, ret. rewrite Hb. reflexivity.
Qed.

(** C4, where the code departs from it: an email without the [body-plain]
    field makes the handler call [strip] on [None]; it raises
    [AttributeError] instead of returning the 400 reply (nothing is enriched
    or persisted). *)
Theorem C4_email_without_body_raises :
  forall E w,
    receive_email E [("sender", "ana@example.org"); ("subject", "Notes")] w
    = (Raise (Exn AttributeError "'NoneType' object has no attribute 'strip'"), w).
Proof. reflexivity. Qed.

(** The same for every email without the field. *)
Lemma receive_email_missing_body (E : env) (form : list (string * string)) (w : world) :
  get form "body-plain" = None ->
  receive_email E form w
  = (Raise (Exn AttributeError "'NoneType' object has no attribute 'strip'"), w).
Proof.
  intros H. unfold receive_email. rewrite H. reflexivity.
Qed.

(** ** Content and username (C5, C6, C10) *)

(** C5 as stated fails on fields that are there but empty: an email whose
    subject is the empty string is stored with the plain body alone, not
    with a ["Subject: "] header; a web clip whose username is the empty
    string is stored under the sentinel, not under the payload username. *)
Lemma C5_counterexample :
  let E := Env (constant_chat "ok") healthy_db in
  let form := [("sender", "ana@example.org"); ("subject", ""); ("body-plain", "hi")] in
  let data := [("url", "https://example.org"); ("text", "hi"); ("username", "")] in
  (get form "subject" = Some ""
   /\ map content (table (snd (receive_email E form empty_world))) = ["hi"]
   /\ spec_email_content (get form "subject") "hi" = "Subject: " ++ nl ++ nl ++ "hi"
   /\ "hi" <> spec_email_content (get form "subject") "hi")
  /\ (get data "username" = Some ""
      /\ map username (table (snd (web_clip_webhook E (WebClipRequest true data) empty_world)))
         = [Some "unknown_web_clipper"]
      /\ spec_web_clip_username (get data "username") = ""
      /\ "unknown_web_clipper" <> spec_web_clip_username (get data "username")).
Proof.
  cbv zeta. repeat split; try reflexivity; discriminate.
Qed.

(** C5, amended: on a store that accepts the row, a valid web clip is stored
    with the content ["Web Clip from {url}:\n\n{text}"] and with the payload
    username when that is there and not empty, the sentinel
    ["unknown_web_clipper"] otherwise; a valid email is stored with the
    content ["Subject: {subject}\n\n{body}"] when the subject is there and
    not empty, with the plain body alone otherwise. *)
Theorem C5_content_and_username :
  (forall E data url text w,
      get data "url" = Some url -> truthy url = true ->
      get data "text" = Some text -> truthy (strip text) = true ->
      store_ok (db E) = true ->
      exists w' r,
        web_clip_webhook E (WebClipRequest true data) w
        = (Ret (Json [("message", "Web clip received and saved!")], 200), w')
        /\ persisted w w' r
        /\ content r = "Web Clip from " ++ url ++ ":" ++ nl ++ nl ++ text
        /\ username r
           = Some (match get data "username" with
                   | Some u => if truthy u then u else "unknown_web_clipper"
                   | None => "unknown_web_clipper"
                   end))
  /\ (forall E form body_plain w,
        get form "body-plain" = Some body_plain -> truthy (strip body_plain) = true ->
        store_ok (db E) = true ->
        exists w' r,
          receive_email E form w = (Ret (Text "Email received and saved!", 200), w')
          /\ persisted w w' r
          /\ content r
             = match get form "subject" with
               | Some subject =>
                   if truthy subject then "Subject: " ++ subject ++ nl ++ nl ++ body_plain
                   else body_plain
               | None => body_plain
               end).
Proof.
  split.
  - intros E data url text w Hurl Hu Htext Ht Hdb.
    rewrite (web_clip_webhook_pipeline E data url text w Hurl Hu Htext Ht).
    rewrite (reply_with_ok E web_clip_reply _ _ _ _ _ _ Hdb).
    do 2 eexists. split; [reflexivity|]. split; [reflexivity|].
    split; [reflexivity|]. cbn [username].
    destruct (get data "username") as [[|c u]|]; reflexivity.
  - intros E form body_plain w Hbody Hb Hdb.
    rewrite (receive_email_pipeline E form body_plain w Hbody Hb).
    rewrite (reply_with_ok E email_reply _ _ _ _ _ _ Hdb).
    do 2 eexists. split; [reflexivity|]. split; [reflexivity|].
    cbn [content]. destruct (get form "subject") as [[|c u]|]; reflexivity.
Qed.

(** C5 at a web clip with a username and an email with a subject. *)
Lemma C5_content_and_username_witness :
  let E := Env (constant_chat "ok") healthy_db in
  let data := [("url", "https://example.org"); ("text", " hi "); ("username", "ana")] in
  let form := [("subject", "Notes"); ("body-plain", "hi")] in
  (exists w' r,
      web_clip_webhook E (WebClipRequest true data) empty_world
      = (Ret (Json [("message", "Web clip received and saved!")], 200), w')
      /\ persisted empty_world w' r
      /\ content r = "Web Clip from https://example.org:" ++ nl ++ nl ++ " hi "
      /\ username r = Some "ana")
  /\ (exists w' r,
        receive_email E form empty_world = (Ret (Text "Email received and saved!", 200), w')
        /\ persisted empty_world w' r
        /\ content r = "Subject: Notes" ++ nl ++ nl ++ "hi").
Proof.
  intros E data form.
  destruct C5_content_and_username as (Hclip & Hmail).
  split.
  - apply (Hclip E data "https://example.org" " hi " empty_world); reflexivity.
  - apply (Hmail E form "hi" empty_world); reflexivity.
Defined.

(** C6 as stated fails when the store does not take the row: an SMS with
    the body [buy milk] gets the failure reply with status 500, and nothing
    is stored, when the connection to the store cannot be opened. *)
Lemma C6_counterexample :
  let E := Env (constant_chat "ok") unreachable_db in
  let form := [("From", "+15550100"); ("Body", "buy milk")] in
  strip (get_default form "Body" "") = "buy milk"
  /\ fst (sms_webhook E form empty_world)
     = Ret (Twiml "Failed to process your SMS note. Please try again.", 500)
  /\ table (snd (sms_webhook E form empty_world)) = [].
Proof. cbv zeta. repeat split. Qed.

(** C6, amended: an SMS whose body is not blank gets the success reply when
    the store accepts the row, and is then stored with the body as it came
    and with the [From] value as username, ["Unknown"] when there is no
    [From]; when the store cannot be reached it gets the failure reply with
    status 500 and nothing is stored; an SMS whose body is empty or blank
    gets the 400 reply with [{"status": "error", "message": "Empty SMS body"}],
    and nothing is called: no chat request, no store call, no row. *)
Theorem C6_sms :
  (forall E form w,
      truthy (strip (get_default form "Body" "")) = true ->
      store_ok (db E) = true ->
      exists w' r,
        sms_webhook E form w
        = (Ret (Twiml "Your SMS note has been processed and saved to Micro-Atlas! 🧠", 200), w')
        /\ persisted w w' r
        /\ content r = get_default form "Body" ""
        /\ username r = Some (match get form "From" with
                              | Some sender => sender
                              | None => "Unknown"
                              end))
  /\ (forall E form w e,
        truthy (strip (get_default form "Body" "")) = true ->
        connect_raises (db E) = Some e ->
        exists w',
          sms_webhook E form w
          = (Ret (Twiml "Failed to process your SMS note. Please try again.", 500), w')
          /\ table w' = table w)
  /\ (forall E form w,
        strip (get_default form "Body" "") = "" ->
        sms_webhook E form w
        = (Ret (Json [("status", "error"); ("message", "Empty SMS body")], 400), w)).
Proof.
  split; [|split].
  - intros E form w H Hdb.
    rewrite (sms_webhook_pipeline E form w H).
    rewrite (reply_with_ok E sms_reply _ _ _ _ _ _ Hdb).
    do 2 eexists. repeat split; reflexivity.
  - intros E form w e H Hdb.
    rewrite (sms_webhook_pipeline E form w H).
    rewrite (reply_with_unreachable E sms_reply _ _ _ _ _ _ e Hdb).
    eexists. split; reflexivity.
  - intros E form w H. unfold sms_webhook. rewrite H. reflexivity.
Qed.

(** C6 at an SMS with a sender, one without, one on a store out of reach,
    a blank one and one without a body. *)
Lemma C6_sms_witness :
  let E := Env (constant_chat "ok") healthy_db in
  (exists w' r,
      sms_webhook E [("From", "+15550100"); ("Body", " buy milk ")] empty_world
      = (Ret (Twiml "Your SMS note has been processed and saved to Micro-Atlas! 🧠", 200), w')
      /\ persisted empty_world w' r
      /\ content r = " buy milk "
      /\ username r = Some "+15550100")
  /\ (exists w' r,
        sms_webhook E [("Body", "buy milk")] empty_world
        = (Ret (Twiml "Your SMS note has been processed and saved to Micro-Atlas! 🧠", 200), w')
        /\ persisted empty_world w' r
        /\ content r = "buy milk"
        /\ username r = Some "Unknown")
  /\ (exists w',
        sms_webhook (Env (constant_chat "ok") unreachable_db)
                    [("From", "+15550100"); ("Body", "buy milk")] empty_world
        = (Ret (Twiml "Failed to process your SMS note. Please try again.", 500), w')
        /\ table w' = table empty_world)
  /\ sms_webhook E [("From", "+15550100"); ("Body", "   ")] empty_world
     = (Ret (Json [("status", "error"); ("message", "Empty SMS body")], 400), empty_world)
  /\ sms_webhook E [("From", "+15550100")] empty_world
     = (Ret (Json [("status", "error"); ("message", "Empty SMS body")], 400), empty_world).
Proof.
  intros E. destruct C6_sms as (Hvalid & Hdown & Hblank).
  split; [|split; [|split; [|split]]].
  - apply (Hvalid E [("From", "+15550100"); ("Body", " buy milk ")] empty_world);
      reflexivity.
  - apply (Hvalid E [("Body", "buy milk")] empty_world); reflexivity.
  - apply (Hdown (Env (constant_chat "ok") unreachable_db)
                 [("From", "+15550100"); ("Body", "buy milk")] empty_world
                 (Exn PsycopgError "could not connect to server"));
      reflexivity.
  - apply (Hblank E [("From", "+15550100"); ("Body", "   ")] empty_world). reflexivity.
  - apply (Hblank E [("From", "+15550100")] empty_world). reflexivity.
Defined.

(** C10 as stated fails on a body that is not empty but blank, which
    validation refuses with the 400 reply, and on a store that cannot be
    reached, where nothing is persisted. *)
Lemma C10_counterexample :
  let E := Env (constant_chat "ok") healthy_db in
  let down := Env (constant_chat "ok") unreachable_db in
  (get [("subject", "Notes"); ("body-plain", " ")] "sender" = None
   /\ get [("subject", "Notes"); ("body-plain", " ")] "body-plain" = Some " "
   /\ " " <> ""
   /\ receive_email E [("subject", "Notes"); ("body-plain", " ")] empty_world
      = (Ret (Text "Missing email body", 400), empty_world))
  /\ (get [("subject", "Notes"); ("body-plain", "hi")] "sender" = None
      /\ fst (receive_email down [("subject", "Notes"); ("body-plain", "hi")] empty_world)
         = Ret (Text "Error saving email", 500)
      /\ table (snd (receive_email down [("subject", "Notes"); ("body-plain", "hi")]
                                   empty_world)) = []).
Proof. cbv zeta. repeat split. discriminate. Qed.

(** C10, amended: an email without a [sender] field whose plain body is
    not blank passes validation and, on a store that accepts the row, is
    stored with no username at all: the email route has no default. *)
Theorem C10_email_without_sender :
  forall E form body_plain w,
    get form "sender" = None ->
    get form "body-plain" = Some body_plain ->
    truthy (strip body_plain) = true ->
    store_ok (db E) = true ->
    exists w' r,
      receive_email E form w = (Ret (Text "Email received and saved!", 200), w')
      /\ persisted w w' r
      /\ username r = None
      /\ In (EvExecute r) (new_events w w').
Proof.
  intros E form body_plain w Hsender Hbody Hb Hdb.
  rewrite (receive_email_pipeline E form body_plain w Hbody Hb).
  rewrite (reply_with_ok E email_reply _ _ _ _ _ _ Hdb).
  do 2 eexists. split; [reflexivity|]. split; [reflexivity|].
  split; [exact Hsender|].
  unfold new_events, logged, store_calls; cbn [trace].
  rewrite <- app_assoc, skipn_app, skipn_all, Nat.sub_diag. cbn [skipn app].
  apply in_or_app. right. simpl. auto.
Qed.

(** C10 at an email with a subject and a body only. *)
Lemma C10_email_without_sender_witness :
  let E := Env (constant_chat "ok") healthy_db in
  let form := [("subject", "Notes"); ("body-plain", "hi")] in
  exists w' r,
    receive_email E form empty_world = (Ret (Text "Email received and saved!", 200), w')
    /\ persisted empty_world w' r
    /\ username r = None
    /\ In (EvExecute r) (new_events empty_world w').
Proof.
  intros E form.
  apply (C10_email_without_sender E form "hi" empty_world); reflexivity.
Defined.

(** ** The chat requests of the enrichment (C9) *)

Lemma chat_request_for_code (content : string) :
  chat_request_for content "summary" = code_chat_request summary_instruction content
  /\ chat_request_for content "sentiment" = code_chat_request sentiment_instruction content
  /\ chat_request_for content "keywords" = code_chat_request keywords_instruction content.
Proof. repeat split. Qed.

Lemma route_chat_calls (E : env) (reply : bool -> response) (c s se : string)
      (ks : list string) (u : option string) (w : world) (content : string) :
  chat_calls (new_events w
    (snd (reply_with reply (save_note_to_database E c s se ks u)
                     (logged w (enrichment_events content)))))
  = [code_chat_request summary_instruction content;
     code_chat_request sentiment_instruction content;
     code_chat_request keywords_instruction content].
Proof.
  destruct (route_events E reply c s se ks u w (enrichment_events content))
    as (evs & Hev & Hstore).
  rewrite Hev, chat_calls_app. cbn [chat_calls enrichment_events app].
  now rewrite (chat_calls_store evs Hstore).
Qed.

(** C9 as stated fails on the text of the requests: for the body [x], the
    messages of the summary request are not the system role and the
    template the specification writes (the role ends with a period, and a
    blank line, not a space, separates template and content). *)
Lemma C9_counterexample :
  let E := Env (constant_chat "ok") healthy_db in
  map messages (chat_calls (trace (snd (sms_webhook E [("Body", "x")] empty_world))))
  = [[("system", "You are a helpful AI assistant.");
      ("user", "Summarize the following text concisely:" ++ nl ++ nl ++ "x")];
     [("system", "You are a helpful AI assistant.");
      ("user", sentiment_instruction ++ nl ++ nl ++ "x")];
     [("system", "You are a helpful AI assistant.");
      ("user", keywords_instruction ++ nl ++ nl ++ "x")]]
  /\ spec_summary_messages "x"
     = [("system", "You are a helpful AI assistant");
        ("user", "Summarize the following text concisely: x")]
  /\ [("system", "You are a helpful AI assistant.");
      ("user", "Summarize the following text concisely:" ++ nl ++ nl ++ "x")]
     <> spec_summary_messages "x".
Proof.
  cbv zeta. split; [reflexivity|]. split; [reflexivity|]. discriminate.
Qed.

(** C9, amended: whatever the service and the store do, each route makes
    exactly three chat requests for a valid request, one per analysis kind
    and in the order summary, sentiment, keywords; each has the system role
    ["You are a helpful AI assistant."], the instruction of its kind
    followed by a blank line and the content, temperature 0.7, at most 500
    tokens, and the fixed model ["gpt-3.5-turbo"]. *)
Theorem C9_enrichment_requests :
  (forall instruction content,
      code_chat_request instruction content
      = {| model := "gpt-3.5-turbo";
           messages := [("system", "You are a helpful AI assistant.");
                        ("user", instruction ++ nl ++ nl ++ content)];
           temperature := 7 # 10;
           max_tokens := 500 |})
  /\ summary_instruction = "Summarize the following text concisely:"
  /\ sentiment_instruction
     = "What is the sentiment of the following text (positive, negative, neutral)? Just provide the sentiment word."
  /\ keywords_instruction
     = "Extract 5-10 key keywords from the following text, separated by commas. Only provide the keywords."
  /\ (forall E form w,
        truthy (strip (get_default form "Body" "")) = true ->
        chat_calls (new_events w (snd (sms_webhook E form w)))
        = [code_chat_request summary_instruction (get_default form "Body" "");
           code_chat_request sentiment_instruction (get_default form "Body" "");
           code_chat_request keywords_instruction (get_default form "Body" "")])
  /\ (forall E data url text w,
        get data "url" = Some url -> truthy url = true ->
        get data "text" = Some text -> truthy (strip text) = true ->
        chat_calls (new_events w (snd (web_clip_webhook E (WebClipRequest true data) w)))
        = [code_chat_request summary_instruction
             ("Web Clip from " ++ url ++ ":" ++ nl ++ nl ++ text);
           code_chat_request sentiment_instruction
             ("Web Clip from " ++ url ++ ":" ++ nl ++ nl ++ text);
           code_chat_request keywords_instruction
             ("Web Clip from " ++ url ++ ":" ++ nl ++ nl ++ text)])
  /\ (forall E form body_plain w,
        get form "body-plain" = Some body_plain -> truthy (strip body_plain) = true ->
        chat_calls (new_events w (snd (receive_email E form w)))
        = [code_chat_request summary_instruction
             (email_content (get form "subject") body_plain);
           code_chat_request sentiment_instruction
             (email_content (get form "subject") body_plain);
           code_chat_request keywords_instruction
             (email_content (get form "subject") body_plain)]).
Proof.
  do 4 (split; [reflexivity|]). split; [|split].
  - intros E form w H. rewrite (sms_webhook_pipeline E form w H).
    apply route_chat_calls.
  - intros E data url text w Hurl Hu Htext Ht.
    rewrite (web_clip_webhook_pipeline E data url text w Hurl Hu Htext Ht).
    apply route_chat_calls.
  - intros E form body_plain w Hbody Hb.
    rewrite (receive_email_pipeline E form body_plain w Hbody Hb).
    apply route_chat_calls.
Qed.

(** C9 at one request of each route, with a store out of reach. *)
Lemma C9_enrichment_requests_witness :
  let E := Env (sentiment_down "x") unreachable_db in
  chat_calls (new_events empty_world
                (snd (sms_webhook E [("From", "+15550100"); ("Body", "x")] empty_world)))
  = [code_chat_request summary_instruction "x";
     code_chat_request sentiment_instruction "x";
     code_chat_request keywords_instruction "x"]
  /\ chat_calls (new_events empty_world
       (snd (web_clip_webhook E
               (WebClipRequest true [("url", "https://example.org"); ("text", "x")])
               empty_world)))
     = [code_chat_request summary_instruction
          ("Web Clip from https://example.org:" ++ nl ++ nl ++ "x");
        code_chat_request sentiment_instruction
          ("Web Clip from https://example.org:" ++ nl ++ nl ++ "x");
        code_chat_request keywords_instruction
          ("Web Clip from https://example.org:" ++ nl ++ nl ++ "x")]
  /\ chat_calls (new_events empty_world
       (snd (receive_email E [("subject", "Notes"); ("body-plain", "x")] empty_world)))
     = [code_chat_request summary_instruction ("Subject: Notes" ++ nl ++ nl ++ "x");
        code_chat_request sentiment_instruction ("Subject: Notes" ++ nl ++ nl ++ "x");
        code_chat_request keywords_instruction ("Subject: Notes" ++ nl ++ nl ++ "x")].
Proof.
  intros E.
  destruct C9_enrichment_requests as (_ & _ & _ & _ & Hsms & Hclip & Hmail).
  split; [|split].
  - apply (Hsms E [("From", "+15550100"); ("Body", "x")] empty_world). reflexivity.
  - apply (Hclip E [("url", "https://example.org"); ("text", "x")]
                 "https://example.org" "x" empty_world); reflexivity.
  - apply (Hmail E [("subject", "Notes"); ("body-plain", "x")] "x" empty_world);
      reflexivity.
Defined.

(** * Further properties *)

(** ** Trimming and splitting *)

Lemma lstrip_blank (s : string) : truthy (lstrip s) = negb (all_space s).
Proof.
  induction s as [|c s IH]; simpl; [reflexivity|].
  destruct (isspace c); simpl; [exact IH | reflexivity].
Qed.

Lemma rstrip_cons_keep (c : ascii) (r : string) :
  isspace c = false -> rstrip (String c r) = String c (rstrip r).
Proof.
  intros H. simpl. destruct (rstrip r); [now rewrite H | reflexivity].
Qed.

(** A text is blank after trimming exactly when it is all whitespace. *)
Lemma strip_blank (s : string) : truthy (strip s) = negb (all_space s).
Proof.
  unfold strip. rewrite <- lstrip_blank.
  destruct (lstrip_spec s) as (_ & _ & _ & Hclean).
  destruct (lstrip s) as [|c r]; [reflexivity|].
  simpl in Hclean. apply negb_true_iff in Hclean.
  now rewrite (rstrip_cons_keep c r Hclean).
Qed.

Lemma lstrip_clean (s : string) :
  clean_edge (first_char s) = true -> lstrip s = s.
Proof.
  destruct s as [|c r]; simpl; [reflexivity|].
  intros H. apply negb_true_iff in H. now rewrite H.
Qed.

Lemma rstrip_clean (s : string) :
  clean_edge (last_char s) = true -> rstrip s = s.
Proof.
  induction s as [|c r IH]; [reflexivity|].
  destruct r as [|a r'].
  - simpl. intros H. apply negb_true_iff in H. now rewrite H.
  - intros H. change (last_char (String c (String a r'))) with (last_char (String a r')) in H.
    change (rstrip (String c (String a r')))
      with (match rstrip (String a r') with
            | EmptyString => if isspace c then EmptyString else String c EmptyString
            | r0 => String c r0
            end).
    now rewrite (IH H).
Qed.

(** Trimming leaves a trimmed text as it is. *)
Lemma strip_trimmed (s : string) : trimmed s = true -> strip s = s.
Proof.
  unfold trimmed, strip. intros H. apply andb_true_iff in H as [Hf Hl].
  rewrite (lstrip_clean s Hf). now apply rstrip_clean.
Qed.

Lemma split_whole (sep : ascii) (s : string) :
  contains sep s = false -> split sep s = [s].
Proof.
  induction s as [|c s IH]; simpl; [reflexivity|].
  intros H. apply orb_false_iff in H as [Hc Hs].
  rewrite Hc, (IH Hs). reflexivity.
Qed.

(** Splitting a text at a separator that stands between two parts splits
    each part. *)
Lemma split_app (sep : ascii) (a b : string) :
  split sep (a ++ String sep b) = (split sep a ++ split sep b)%list.
Proof.
  induction a as [|c a IH]; simpl.
  - now rewrite Ascii.eqb_refl.
  - destruct (Ascii.eqb c sep); [now rewrite IH|].
    rewrite IH. pose proof (split_not_nil sep a) as Hnil.
    destruct (split sep a) as [|p ps]; [contradiction | reflexivity].
Qed.

Lemma split_length (sep : ascii) (s : string) :
  length (split sep s) = S (count_char sep s).
Proof.
  induction s as [|c s IH]; simpl; [reflexivity|].
  destruct (Ascii.eqb c sep); simpl; [now rewrite IH|].
  pose proof (split_not_nil sep s) as Hnil.
  destruct (split sep s) as [|p ps]; [contradiction | exact IH].
Qed.

Lemma split_contains (c sep : ascii) (s : string) :
  contains c s = false ->
  forallb (fun p => negb (contains c p)) (split sep s) = true.
Proof.
  induction s as [|x s IH]; simpl; [reflexivity|].
  intros H. apply orb_false_iff in H as [Hx Hs]. specialize (IH Hs).
  destruct (Ascii.eqb x sep); simpl; [exact IH|].
  destruct (split sep s) as [|p ps]; simpl in *; now rewrite Hx.
Qed.

Lemma split_all_space (s : string) :
  forallb all_space (split comma s) = only_separators s.
Proof.
  induction s as [|c s IH]; simpl; [reflexivity|].
  destruct (Ascii.eqb c comma) eqn:Hc; simpl.
  - rewrite IH. now rewrite orb_true_r.
  - rewrite orb_false_r, <- IH.
    pose proof (split_not_nil comma s) as Hnil.
    destruct (split comma s) as [|p ps]; [contradiction|].
    simpl. now rewrite andb_assoc.
Qed.

(** ** More on keyword parsing *)

Lemma parse_pieces (pieces : list string) :
  forallb well_formed_keyword pieces = true ->
  map strip (filter (fun k => truthy (strip k)) pieces) = pieces.
Proof.
  induction pieces as [|k ks IH]; simpl; [reflexivity|].
  intros H. apply andb_true_iff in H as [Hk Hks].
  unfold well_formed_keyword in Hk.
  apply andb_true_iff in Hk as [Hk _]. apply andb_true_iff in Hk as [Hne Htrim].
  rewrite (strip_trimmed k Htrim), Hne. simpl.
  now rewrite (strip_trimmed k Htrim), (IH Hks).
Qed.

Lemma split_join_comma (k : string) (ks : list string) :
  forallb well_formed_keyword (k :: ks) = true ->
  split comma (join "," (k :: ks)) = k :: ks.
Proof.
  revert k. induction ks as [|k' ks IH]; intros k H; simpl in H;
    apply andb_true_iff in H as [Hk Hks];
    unfold well_formed_keyword in Hk; apply andb_true_iff in Hk as [_ Hk];
    apply negb_true_iff in Hk.
  - simpl. now apply split_whole.
  - change (join "," (k :: k' :: ks)) with (k ++ String comma (join "," (k' :: ks))).
    rewrite split_app, (split_whole comma k Hk), (IH k' Hks). reflexivity.
Qed.

Lemma split_join_comma_space (k : string) (ks : list string) :
  forallb well_formed_keyword (k :: ks) = true ->
  split comma (join ", " (k :: ks)) = k :: map (String " ") ks.
Proof.
  revert k. induction ks as [|k' ks IH]; intros k H; simpl in H;
    apply andb_true_iff in H as [Hk Hks];
    unfold well_formed_keyword in Hk; apply andb_true_iff in Hk as [_ Hk];
    apply negb_true_iff in Hk.
  - simpl. now apply split_whole.
  - change (join ", " (k :: k' :: ks))
      with (k ++ String comma (String " " (join ", " (k' :: ks)))).
    rewrite split_app, (split_whole comma k Hk).
    change (split comma (String " " (join ", " (k' :: ks))))
      with (match split comma (join ", " (k' :: ks)) with
            | p :: ps => String " " p :: ps
            | [] => [String " " EmptyString]
            end).
    rewrite (IH k' Hks). reflexivity.
Qed.

Lemma parse_spaced (ks : list string) :
  forallb well_formed_keyword ks = true ->
  map strip (filter (fun k => truthy (strip k)) (map (String " ") ks)) = ks.
Proof.
  intros H. rewrite <- (parse_pieces ks H) at 2.
  induction ks as [|k ks IH]; simpl; [reflexivity|].
  simpl in H. apply andb_true_iff in H as [_ Hks].
  change (strip (String " " k)) with (strip k).
  destruct (truthy (strip k)); simpl; now rewrite (IH Hks).
Qed.

Lemma parse_join_pieces (keywords : list string) :
  forallb well_formed_keyword keywords = true ->
  parse_keywords_response (join "," keywords) = keywords
  /\ parse_keywords_response (join ", " keywords) = keywords.
Proof.
  intros H. unfold parse_keywords_response.
  destruct keywords as [|k ks]; [split; reflexivity|].
  rewrite (split_join_comma k ks H), (split_join_comma_space k ks H).
  split; [now apply parse_pieces|].
  simpl in H. apply andb_true_iff in H as [Hk Hks].
  unfold well_formed_keyword in Hk.
  apply andb_true_iff in Hk as [Hk _]. apply andb_true_iff in Hk as [Hne Htrim].
  cbn [filter]. rewrite (strip_trimmed k Htrim), Hne. cbn [map].
  now rewrite (strip_trimmed k Htrim), (parse_spaced ks Hks).
Qed.

(** Keywords that are not empty, trimmed and free of commas come back from
    their comma-separated text, written with or without a space after each
    comma; so joining the keywords parsed from a response and parsing again
    gives the same keywords. *)
Theorem parse_keywords_join :
  (forall keywords,
      forallb well_formed_keyword keywords = true ->
      parse_keywords_response (join "," keywords) = keywords
      /\ parse_keywords_response (join ", " keywords) = keywords)
  /\ (forall raw,
        parse_keywords_response (join ", " (parse_keywords_response raw))
        = parse_keywords_response raw).
Proof.
  split.
  - exact parse_join_pieces.
  - intros raw.
    now destruct (parse_join_pieces _ (parse_keywords_well_formed raw)).
Qed.

(** The round trip at three keywords, one with a space inside. *)
Lemma parse_keywords_join_witness :
  forallb well_formed_keyword ["machine learning"; "data"; "ai"] = true
  /\ parse_keywords_response (join "," ["machine learning"; "data"; "ai"])
     = ["machine learning"; "data"; "ai"]
  /\ parse_keywords_response (join ", " ["machine learning"; "data"; "ai"])
     = ["machine learning"; "data"; "ai"].
Proof.
  split; [reflexivity|].
  apply (proj1 parse_keywords_join ["machine learning"; "data"; "ai"]). reflexivity.
Defined.

(** A response gives no keyword at all exactly when it holds nothing but
    commas and whitespace (the empty response among them). *)
Theorem parse_keywords_empty (raw : string) :
  is_nil (parse_keywords_response raw) = only_separators raw.
Proof.
  unfold parse_keywords_response. rewrite <- split_all_space.
  induction (split comma raw) as [|p ps IH]; simpl; [reflexivity|].
  rewrite strip_blank. destruct (all_space p); simpl; [exact IH | reflexivity].
Qed.

(** The keywords of two responses put together with a comma are the
    keywords of the first followed by those of the second. *)
Theorem parse_keywords_app (a b : string) :
  parse_keywords_response (a ++ "," ++ b)
  = (parse_keywords_response a ++ parse_keywords_response b)%list.
Proof.
  unfold parse_keywords_response.
  change (a ++ "," ++ b) with (a ++ String comma b).
  now rewrite split_app, filter_app, map_app.
Qed.

(** A response with n commas gives at most n + 1 keywords. *)
Theorem parse_keywords_length (raw : string) :
  length (parse_keywords_response raw) <= S (count_char comma raw).
Proof.
  unfold parse_keywords_response.
  rewrite length_map, <- split_length. apply filter_length_le.
Qed.

Lemma split_prefix (sep : ascii) (pre s : string) :
  contains sep pre = false ->
  exists p ps, split sep s = p :: ps /\ split sep (pre ++ s) = (pre ++ p) :: ps.
Proof.
  intros H. induction pre as [|c pre IH]; simpl.
  - pose proof (split_not_nil sep s) as Hnil.
    destruct (split sep s) as [|p ps]; [contradiction|]. now exists p, ps.
  - simpl in H. apply orb_false_iff in H as [Hc Hpre].
    destruct (IH Hpre) as (p & ps & Hs & Hsplit).
    exists p, ps. split; [exact Hs|]. now rewrite Hc, Hsplit.
Qed.

Lemma parse_error_text (cause : string) :
  exists k ks,
    parse_keywords_response ("Error: " ++ cause) = k :: ks
    /\ startswith "Error:" k = true.
Proof.
  unfold parse_keywords_response.
  destruct (split_prefix comma "Error: " cause eq_refl) as (p & ps & _ & Hsplit).
  rewrite Hsplit. cbn [filter]. rewrite strip_blank. cbn [all_space append negb andb].
  change (isspace "E") with false. cbn [andb negb map].
  eexists. eexists. split; [reflexivity|].
  unfold strip. cbn [lstrip append]. change (isspace "E") with false. cbv iota.
  rewrite !rstrip_cons_keep by reflexivity.
  apply (startswith_append "Error:").
Qed.

(** ** From the response to the stored literal *)

Lemma parse_keywords_contains (c : ascii) (raw : string) :
  contains c raw = false ->
  forallb (fun k => negb (contains c k)) (parse_keywords_response raw) = true.
Proof.
  intros H. unfold parse_keywords_response.
  pose proof (split_contains c comma raw H) as Hpieces.
  induction (split comma raw) as [|p ps IH]; simpl in *; [reflexivity|].
  apply andb_true_iff in Hpieces as [Hp Hps].
  destruct (truthy (strip p)); simpl; [|now apply IH].
  rewrite (IH Hps), andb_true_r.
  apply negb_true_iff in Hp. now rewrite (contains_strip c p Hp).
Qed.

(** The keywords parsed from a response without backslashes, written as the
    array literal, are read back by the store's reader as they were parsed:
    quotes, braces and spaces inside a keyword do no harm. *)
Theorem keywords_survive_storage (raw : string) :
  contains backslash raw = false ->
  pg_array_read (keywords_pg_array (parse_keywords_response raw))
  = Some (parse_keywords_response raw).
Proof.
  intros H. apply pg_array_read_keywords. unfold no_backslash.
  now apply parse_keywords_contains.
Qed.

Lemma keywords_survive_storage_witness :
  let raw := "a " ++ quote_mark ++ "b" ++ quote_mark ++ " c, {x} ,,y" in
  contains backslash raw = false
  /\ parse_keywords_response raw = ["a " ++ quote_mark ++ "b" ++ quote_mark ++ " c"; "{x}"; "y"]
  /\ pg_array_read (keywords_pg_array (parse_keywords_response raw))
     = Some (parse_keywords_response raw).
Proof.
  intros raw. split; [reflexivity|]. split; [reflexivity|].
  apply (keywords_survive_storage raw). reflexivity.
Defined.

(** A keyword that ends with a backslash, and holds no other backslash nor
    a double quote, makes the literal unreadable: the backslash is written as
    it is and takes the closing quote of the element with it. *)
Theorem keywords_backslash_unreadable (k : string) (before : list string) :
  contains backslash k = false -> contains dquote k = false ->
  no_backslash before = true ->
  pg_array_read (keywords_pg_array (before ++ [(k ++ "\")%string])%list) = None.
Proof.
  intros Hb Hq Hbefore.
  assert (Hlast : forall acc,
             pg_run (PgQuoted acc "") (escape_quotes (k ++ "\") ++ String dquote "}") = None).
  { intros acc.
    assert (Hesc : forall cur,
               pg_run (PgQuoted acc cur) (escape_quotes (k ++ "\") ++ String dquote "}")
               = None).
    { unfold escape_quotes. clear Hbefore.
      induction k as [|x k IH]; intros cur.
      - reflexivity.
      - simpl in Hb, Hq. apply orb_false_iff in Hb as [Hxb Hb].
        apply orb_false_iff in Hq as [Hxq Hq].
        cbn [append replace]. rewrite Hxq. cbn [append pg_run pg_step].
        rewrite Hxq, Hxb. now apply IH. }
    apply Hesc. }
  unfold pg_array_read, keywords_pg_array.
  destruct before as [|b bs].
  - cbn [app map join append pg_run pg_step].
    change (Ascii.eqb "{" "{") with true. cbv iota.
    rewrite pg_quote_unfold. cbn [pg_run pg_step].
    change (Ascii.eqb dquote "}") with false.
    change (Ascii.eqb dquote dquote) with true. cbv iota. apply Hlast.
  - cbn [append pg_run pg_step]. change (Ascii.eqb "{" "{") with true. cbv iota.
    assert (Hgen : forall bs b acc,
               no_backslash (b :: bs) = true ->
               pg_run (PgElem acc)
                 (join "," (map pg_quote ((b :: bs) ++ [(k ++ "\")%string])%list) ++ "}") = None).
    { clear b bs Hbefore. induction bs as [|b' bs IH]; intros b acc H;
        simpl in H; apply andb_true_iff in H as [Hb0 Hbs]; apply negb_true_iff in Hb0.
      - change (join "," (map pg_quote ([b] ++ [(k ++ "\")%string])%list))
          with (pg_quote b ++ "," ++ pg_quote (k ++ "\")).
        rewrite append_assoc, pg_quote_unfold. cbn [pg_run pg_step].
        change (Ascii.eqb dquote dquote) with true. cbv iota.
        rewrite (pg_run_quoted b Hb0). cbn [append pg_run pg_step].
        change (Ascii.eqb "," comma) with true. cbv iota.
        rewrite pg_quote_unfold. cbn [pg_run pg_step].
        change (Ascii.eqb dquote dquote) with true. cbv iota. apply Hlast.
      - change (join "," (map pg_quote ((b :: b' :: bs) ++ [(k ++ "\")%string])%list))
          with (pg_quote b ++ "," ++ join "," (map pg_quote ((b' :: bs) ++ [(k ++ "\")%string])%list)).
        rewrite append_assoc, pg_quote_unfold. cbn [pg_run pg_step].
        change (Ascii.eqb dquote dquote) with true. cbv iota.
        rewrite (pg_run_quoted b Hb0). cbn [append pg_run pg_step].
        change (Ascii.eqb "," comma) with true. cbv iota.
        apply (IH b' _ Hbs). }
    pose proof (Hgen bs b [] Hbefore) as Hrun.
    change ((b :: bs) ++ [(k ++ "\")%string])%list
      with (b :: (bs ++ [(k ++ "\")%string]))%list in *.
    rewrite join_quoted_unfold in *. cbn [pg_run pg_step] in *.
    change (Ascii.eqb dquote "}") with false.
    change (Ascii.eqb dquote dquote) with true in *. cbv iota in *.
    exact Hrun.
Qed.

Lemma keywords_backslash_unreadable_witness :
  contains backslash "C:" = false /\ contains dquote "C:" = false
  /\ no_backslash ["paths"] = true
  /\ pg_array_read (keywords_pg_array ["paths"; "C:\"]) = None.
Proof.
  split; [reflexivity|]. split; [reflexivity|]. split; [reflexivity|].
  apply (keywords_backslash_unreadable "C:" ["paths"]); reflexivity.
Defined.

(** ** The connection helper and the chat wrapper *)

(** [get_supabase_connection] never raises: it makes one connection attempt
    and gives the connection, or [None] when the attempt raised; the table
    is not touched. *)
Theorem get_supabase_connection_never_raises (E : env) (w : world) :
  fst (get_supabase_connection E w)
  = Ret (match connect_raises (db E) with
         | None => Some Conn
         | Some _ => None
         end)
  /\ trace (snd (get_supabase_connection E w)) = (trace w ++ [EvConnect])%list
  /\ table (snd (get_supabase_connection E w)) = table w.
Proof.
  unfold get_supabase_connection, psycopg2_connect, call, attempt, bind, log,
    modify, ret, raise.
  destruct (connect_raises (db E)); simpl; auto.
Qed.

(** [get_ai_analysis] never raises and never touches the store: it makes
    exactly one chat request and returns a text, which is the trimmed
    content of the first choice, or an error text when the service raised,
    sent no choice, or sent a null content. *)
Theorem get_ai_analysis_never_raises (E : env) (text_input prompt_type : string) (w : world) :
  exists answer,
    get_ai_analysis E text_input prompt_type w
    = (Ret answer, logged w [EvChat (chat_request_for text_input prompt_type)])
    /\ match chat E (chat_request_for text_input prompt_type) with
       | ChatResponse (Some content :: _) =>
           answer = strip content /\ trimmed answer = true
       | ChatResponse (None :: _) =>
           answer = "Error: 'NoneType' object has no attribute 'strip'"
       | ChatResponse [] => answer = "Error: list index out of range"
       | ChatRaise e => answer = "Error: " ++ exn_str e
       end.
Proof.
  rewrite get_ai_analysis_run. eexists. split; [reflexivity|].
  unfold analysis.
  destruct (chat E (chat_request_for text_input prompt_type))
    as [e|[|[content|] choices]]; cbn [analysis_of]; auto.
  split; [reflexivity|].
  now destruct (strip_spec content) as (_ & _ & _ & _ & _ & Htrim).
Qed.

(** A prompt type other than the four known ones is not refused: the
    request is sent all the same, with an empty user message, so the text to
    analyse never reaches the service. *)
Theorem get_ai_analysis_unknown_type (E : env) (text_input prompt_type : string) (w : world) :
  String.eqb prompt_type "summary" = false ->
  String.eqb prompt_type "sentiment" = false ->
  String.eqb prompt_type "keywords" = false ->
  String.eqb prompt_type "full_analysis_prompt" = false ->
  new_events w (snd (get_ai_analysis E text_input prompt_type w))
  = [EvChat {| model := "gpt-3.5-turbo";
               messages := [("system", "You are a helpful AI assistant.");
                            ("user", "")];
               temperature := 7 # 10;
               max_tokens := 500 |}].
Proof.
  intros H1 H2 H3 H4. rewrite get_ai_analysis_run. cbn [snd].
  rewrite new_events_logged. unfold chat_request_for, user_prompt.
  now rewrite H1, H2, H3, H4.
Qed.

Lemma get_ai_analysis_unknown_type_witness :
  new_events empty_world
    (snd (get_ai_analysis (Env (constant_chat "ok") healthy_db)
            "some long note" "topics" empty_world))
  = [EvChat {| model := "gpt-3.5-turbo";
               messages := [("system", "You are a helpful AI assistant.");
                            ("user", "")];
               temperature := 7 # 10;
               max_tokens := 500 |}].
Proof.
  apply (get_ai_analysis_unknown_type (Env (constant_chat "ok") healthy_db)
           "some long note" "topics" empty_world); reflexivity.
Defined.

(** ** More on persistence *)

Lemma new_events_skip (w : world) (evs : list event) :
  skipn (length (trace w)) (trace w ++ evs) = evs.
Proof. rewrite skipn_app, skipn_all, Nat.sub_diag. reflexivity. Qed.

Lemma save_false_table (E : env) (c s se : string) (ks : list string)
      (u : option string) (w w' : world) :
  save_note_to_database E c s se ks u w = (Ret false, w') ->
  table w' = table w
  /\ (new_events w w' = [EvConnect] \/ In EvRollback (new_events w w')).
Proof.
  destruct E as [ch o]. unfold new_events. intros H.
  case_oracle o; inversion H; subst; clear H; cbn [trace table];
    rewrite <- ?app_assoc, new_events_skip; simpl; auto 10.
Qed.

Lemma save_true_calls (E : env) (c s se : string) (ks : list string)
      (u : option string) (w w' : world) :
  save_note_to_database E c s se ks u w = (Ret true, w') ->
  new_events w w' = store_calls (Row c s se (keywords_pg_array ks) u).
Proof.
  destruct E as [ch o]. unfold new_events. intros H.
  case_oracle o; inversion H; subst; clear H; cbn [trace table];
    rewrite <- ?app_assoc, new_events_skip; reflexivity.
Qed.


(** The answer [False] means that nothing was written: the table is as
    before, and either no connection could be opened, which ends the run at
    once, or the transaction was rolled back. *)
Theorem save_false_writes_nothing (E : env) (content summary sentiment : string)
      (keywords : list string) (username : option string) (w w' : world) :
  save_note_to_database E content summary sentiment keywords username w = (Ret false, w') ->
  table w' = table w
  /\ (new_events w w' = [EvConnect] \/ In EvRollback (new_events w w')).
Proof. apply save_false_table. Qed.

(** [False] on a store that refuses the insert. *)
Lemma save_false_writes_nothing_witness :
  let E := Env (constant_chat "ok") insert_refused_db in
  let w' := World [EvConnect; EvCursor;
                   EvExecute (Row "hi" "s" "neutral" (keywords_pg_array ["k"]) (Some "ana"));
                   EvRollback; EvCursorClose; EvConnClose] [] [] in
  save_note_to_database E "hi" "s" "neutral" ["k"] (Some "ana") empty_world = (Ret false, w')
  /\ table w' = table empty_world
  /\ (new_events empty_world w' = [EvConnect] \/ In EvRollback (new_events empty_world w')).
Proof.
  intros E w'. split; [reflexivity|].
  apply (save_false_writes_nothing E "hi" "s" "neutral" ["k"] (Some "ana") empty_world w').
  reflexivity.
Defined.

(** The answer [True] means one committed transaction: the store took every
    call, the calls were exactly connect, cursor, insert, read-back, commit
    and the two releases, and the table grew by the one row of the note. *)
Theorem save_true_means_committed (E : env) (content summary sentiment : string)
      (keywords : list string) (username : option string) (w w' : world) :
  save_note_to_database E content summary sentiment keywords username w = (Ret true, w') ->
  store_ok (db E) = true
  /\ persisted w w' (Row content summary sentiment (keywords_pg_array keywords) username)
  /\ new_events w w'
     = store_calls (Row content summary sentiment (keywords_pg_array keywords) username).
Proof.
  intros H. split; [|split].
  - apply (save_note_to_database_true_iff E content summary sentiment keywords username w).
    now rewrite H.
  - now destruct (save_note_to_database_true E _ _ _ _ _ _ _ H) as (_ & _ & Hrow).
  - exact (save_true_calls E _ _ _ _ _ _ _ H).
Qed.

(** [True] on a store that takes every call. *)
Lemma save_true_means_committed_witness :
  let E := Env (constant_chat "ok") healthy_db in
  let r := Row "hi" "s" "neutral" (keywords_pg_array ["k"]) (Some "ana") in
  let w' := World (store_calls r) [r] [] in
  save_note_to_database E "hi" "s" "neutral" ["k"] (Some "ana") empty_world = (Ret true, w')
  /\ store_ok (db E) = true
  /\ persisted empty_world w' r
  /\ new_events empty_world w' = store_calls r.
Proof.
  intros E r w'. split; [reflexivity|].
  apply (save_true_means_committed E "hi" "s" "neutral" ["k"] (Some "ana") empty_world w').
  reflexivity.
Defined.

(** No retry: whatever the store does, one run asks for one connection and
    makes at most one insert and at most one commit. *)
Theorem save_attempts_once (E : env) (content summary sentiment : string)
      (keywords : list string) (username : option string) (w : world) :
  let evs := new_events w
               (snd (save_note_to_database E content summary sentiment keywords username w)) in
  length (filter is_connect evs) = 1
  /\ length (filter is_execute evs) <= 1
  /\ length (filter is_commit evs) <= 1.
Proof.
  destruct E as [ch o]. unfold new_events.
  case_oracle o; cbn [trace snd]; rewrite <- ?app_assoc, new_events_skip;
    simpl; auto.
Qed.

(** Once the cursor is open, the connection is released whatever fails in
    between, provided [cur.close()] itself does not raise: the last call of
    the run is [conn.close()]. *)
Theorem save_releases_connection (E : env) (content summary sentiment : string)
      (keywords : list string) (username : option string) (w : world) :
  connect_raises (db E) = None ->
  cursor_raises (db E) = None ->
  cursor_close_raises (db E) = None ->
  last (new_events w
          (snd (save_note_to_database E content summary sentiment keywords username w)))
       EvConnect
  = EvConnClose.
Proof.
  destruct E as [ch o]. unfold new_events. intros Hconnect Hcursor Hclose.
  case_oracle o; try discriminate; cbn [trace snd];
    rewrite <- ?app_assoc, new_events_skip; reflexivity.
Qed.

(** Release after a refused insert. *)
Lemma save_releases_connection_witness :
  last (new_events empty_world
          (snd (save_note_to_database (Env (constant_chat "ok") insert_refused_db)
                  "hi" "s" "neutral" ["k"] (Some "ana") empty_world)))
       EvConnect
  = EvConnClose.
Proof.
  apply (save_releases_connection (Env (constant_chat "ok") insert_refused_db));
    reflexivity.
Defined.

(** A failure of [cur.close()] or [conn.close()] after the commit makes
    [save_note_to_database] raise although the row is stored: the caller
    sees an exception for a note that was saved. *)
Theorem save_commits_then_raises (E : env) (content summary sentiment : string)
      (keywords : list string) (username : option string) (w : world) (id : Z) :
  connect_raises (db E) = None ->
  cursor_raises (db E) = None ->
  execute_raises (db E) = None ->
  fetchone_gives (db E) = FetchRow id ->
  commit_raises (db E) = None ->
  store_ok (db E) = false ->
  exists e,
    fst (save_note_to_database E content summary sentiment keywords username w) = Raise e
    /\ (cursor_close_raises (db E) = Some e
        \/ (cursor_close_raises (db E) = None /\ conn_close_raises (db E) = Some e))
    /\ persisted w
         (snd (save_note_to_database E content summary sentiment keywords username w))
         (Row content summary sentiment (keywords_pg_array keywords) username).
Proof.
  destruct E as [ch o]. unfold store_ok, persisted.
  intros Hconnect Hcursor Hexecute Hfetch Hcommit Hnot.
  case_oracle o; try discriminate; eexists; cbn [fst snd table]; auto.
Qed.

(** The commit followed by a failing [cur.close()]. *)
Lemma save_commits_then_raises_witness :
  let E := Env (constant_chat "ok") close_fails_db in
  exists e,
    fst (save_note_to_database E "hi" "s" "neutral" ["k"] (Some "ana") empty_world) = Raise e
    /\ (cursor_close_raises (db E) = Some e
        \/ (cursor_close_raises (db E) = None /\ conn_close_raises (db E) = Some e))
    /\ persisted empty_world
         (snd (save_note_to_database E "hi" "s" "neutral" ["k"] (Some "ana") empty_world))
         (Row "hi" "s" "neutral" (keywords_pg_array ["k"]) (Some "ana")).
Proof.
  intros E.
  apply (save_commits_then_raises E "hi" "s" "neutral" ["k"] (Some "ana") empty_world 1);
    reflexivity.
Defined.

(** A failure of the insert, of the read-back (an exception, or no row to
    read the id from) or of the commit is rolled back and answered with
    [False], with the table as before, when the cursor could be opened and
    rolling back and releasing go through. *)
Theorem save_rolls_back_on_failure (E : env) (content summary sentiment : string)
      (keywords : list string) (username : option string) (w : world) :
  connect_raises (db E) = None ->
  store_safe (db E) = true ->
  store_ok (db E) = false ->
  fst (save_note_to_database E content summary sentiment keywords username w) = Ret false
  /\ In EvRollback
        (new_events w
           (snd (save_note_to_database E content summary sentiment keywords username w)))
  /\ table (snd (save_note_to_database E content summary sentiment keywords username w))
     = table w.
Proof.
  destruct E as [ch o]. unfold store_safe, store_ok, new_events.
  intros Hconnect Hsafe Hnot.
  case_oracle o; try discriminate; cbn [trace table fst snd];
    rewrite <- ?app_assoc, new_events_skip; simpl; auto 10.
Qed.

(** Rollback after a refused insert. *)
Lemma save_rolls_back_on_failure_witness :
  let E := Env (constant_chat "ok") insert_refused_db in
  fst (save_note_to_database E "hi" "s" "neutral" ["k"] (Some "ana") empty_world) = Ret false
  /\ In EvRollback
        (new_events empty_world
           (snd (save_note_to_database E "hi" "s" "neutral" ["k"] (Some "ana") empty_world)))
  /\ table (snd (save_note_to_database E "hi" "s" "neutral" ["k"] (Some "ana") empty_world))
     = table empty_world.
Proof.
  intros E.
  apply (save_rolls_back_on_failure E "hi" "s" "neutral" ["k"] (Some "ana") empty_world);
    reflexivity.
Defined.

(** ** What the reply of a route tells *)

Lemma sms_webhook_blank (E : env) (form : list (string * string)) (w : world) :
  truthy (strip (get_default form "Body" "")) = false ->
  sms_webhook E form w
  = (Ret (Json [("status", "error"); ("message", "Empty SMS body")], 400), w).
Proof. intros H. unfold sms_webhook. now rewrite H. Qed.

(** What a reply built on the answer of persistence tells, for a route whose
    success reply has status 200 and whose failure reply has status 500. *)
Lemma reply_with_outcome (E : env) (reply : bool -> response) (c s se : string)
      (ks : list string) (u : option string) (w0 w : world) :
  snd (reply true) = 200 -> snd (reply false) = 500 ->
  table w = table w0 ->
  let r := reply_with reply (save_note_to_database E c s se ks u) w in
  (status_of (fst r) = Some 200 ->
     persisted w0 (snd r) (Row c s se (keywords_pg_array ks) u))
  /\ (status_of (fst r) = Some 500 -> table (snd r) = table w0)
  /\ status_of (fst r) <> Some 400
  /\ (table (snd r) = table w0
      \/ persisted w0 (snd r) (Row c s se (keywords_pg_array ks) u)).
Proof.
  intros Htrue Hfalse Htable. cbv zeta. unfold reply_with, bind.
  destruct (save_note_to_database_events E c s se ks u w) as (_ & _ & _ & Hrows).
  unfold persisted in *. rewrite Htable in Hrows.
  destruct (save_note_to_database E c s se ks u w) as [[[|]|e] w'] eqn:Hsave;
    cbn [fst snd status_of ret] in *.
  - destruct (save_note_to_database_true E _ _ _ _ _ _ _ Hsave) as (_ & _ & Hrow).
    unfold persisted in Hrow. rewrite Htable in Hrow.
    destruct (reply true) as [b st]. cbn [snd] in *. subst st.
    repeat split; auto; discriminate.
  - destruct (save_false_table E _ _ _ _ _ _ _ Hsave) as (Hsame & _).
    rewrite Htable in Hsame.
    destruct (reply false) as [b st]. cbn [snd] in *. subst st.
    repeat split; auto; discriminate.
  - repeat split; auto; discriminate.
Qed.

Ltac sms_cases E form w :=
  destruct (truthy (strip (get_default form "Body" ""))) eqn:Hbody;
  [ rewrite (sms_webhook_pipeline E form w Hbody)
  | rewrite (sms_webhook_blank E form w Hbody) ].

Ltac web_clip_cases E request w :=
  let j := fresh "j" in
  let data := fresh "data" in
  destruct request as [j data];
  destruct j;
  [ destruct (get data "url") as [url|] eqn:Hurl;
    [ destruct (truthy url) eqn:Htruthy;
      [ destruct (get data "text") as [text|] eqn:Htext;
        [ destruct (truthy (strip text)) eqn:Hblank;
          [ rewrite (web_clip_webhook_pipeline E data url text w Hurl Htruthy Htext Hblank)
          | rewrite (web_clip_webhook_blank_text E data text w Htext Hblank) ]
        | rewrite (web_clip_webhook_missing_text E data w);
          [ | rewrite Hurl; exact Htruthy | exact Htext ] ]
      | rewrite (web_clip_webhook_missing_url E data w);
        [ | rewrite Hurl; exact Htruthy ] ]
    | rewrite (web_clip_webhook_missing_url E data w);
      [ | rewrite Hurl; reflexivity ] ]
  | rewrite (web_clip_webhook_not_json E data w) ].

Ltac email_cases E form w :=
  destruct (get form "body-plain") as [body_plain|] eqn:Hbody;
  [ destruct (truthy (strip body_plain)) eqn:Hblank;
    [ rewrite (receive_email_pipeline E form body_plain w Hbody Hblank)
    | rewrite (receive_email_blank_body E form body_plain w Hbody Hblank) ]
  | rewrite (receive_email_missing_body E form w Hbody) ].

Ltac reply_facts E reply w :=
  match goal with
  | |- context [reply_with reply (save_note_to_database E ?c ?s ?se ?ks ?u) ?w1] =>
      let H200 := fresh "H200" in
      let H500 := fresh "H500" in
      let H400 := fresh "H400" in
      let Hrows := fresh "Hrows" in
      destruct (reply_with_outcome E reply c s se ks u w w1 eq_refl eq_refl eq_refl)
        as (H200 & H500 & H400 & Hrows)
  end.

(** A reply with status 400 is always given before anything is called:
    no chat request, no store call, the world is as it was. *)
Theorem routes_refuse_before_any_call :
  (forall E form w,
      status_of (fst (sms_webhook E form w)) = Some 400 ->
      snd (sms_webhook E form w) = w)
  /\ (forall E request w,
        status_of (fst (web_clip_webhook E request w)) = Some 400 ->
        snd (web_clip_webhook E request w) = w)
  /\ (forall E form w,
        status_of (fst (receive_email E form w)) = Some 400 ->
        snd (receive_email E form w) = w).
Proof.
  split; [|split].
  - intros E form w. sms_cases E form w; [|reflexivity].
    reply_facts E sms_reply w. intros H. now elim H400.
  - intros E request w. web_clip_cases E request w; try reflexivity.
    reply_facts E web_clip_reply w. intros H. now elim H400.
  - intros E form w. email_cases E form w; try reflexivity.
    reply_facts E email_reply w. intros H. now elim H400.
Qed.

(** Refusals of a blank SMS, a web clip that is not JSON and a blank email. *)
Lemma routes_refuse_before_any_call_witness :
  let E := Env (constant_chat "ok") healthy_db in
  snd (sms_webhook E [("From", "+15550100"); ("Body", " ")] empty_world) = empty_world
  /\ snd (web_clip_webhook E (WebClipRequest false []) empty_world) = empty_world
  /\ snd (receive_email E [("body-plain", "")] empty_world) = empty_world.
Proof.
  intros E. destruct routes_refuse_before_any_call as (Hsms & Hclip & Hmail).
  split; [|split].
  - apply (Hsms E [("From", "+15550100"); ("Body", " ")] empty_world). reflexivity.
  - apply (Hclip E (WebClipRequest false []) empty_world). reflexivity.
  - apply (Hmail E [("body-plain", "")] empty_world). reflexivity.
Defined.

(** A reply with status 200 is given only when the note is in the table: the
    run added exactly one row. A reply with status 500 is given only when
    the table is as it was. This holds for every store and every service. *)
Theorem routes_reply_tells_storage :
  (forall E form w,
      (status_of (fst (sms_webhook E form w)) = Some 200 ->
       exists r, persisted w (snd (sms_webhook E form w)) r)
      /\ (status_of (fst (sms_webhook E form w)) = Some 500 ->
          table (snd (sms_webhook E form w)) = table w))
  /\ (forall E request w,
        (status_of (fst (web_clip_webhook E request w)) = Some 200 ->
         exists r, persisted w (snd (web_clip_webhook E request w)) r)
        /\ (status_of (fst (web_clip_webhook E request w)) = Some 500 ->
            table (snd (web_clip_webhook E request w)) = table w))
  /\ (forall E form w,
        (status_of (fst (receive_email E form w)) = Some 200 ->
         exists r, persisted w (snd (receive_email E form w)) r)
        /\ (status_of (fst (receive_email E form w)) = Some 500 ->
            table (snd (receive_email E form w)) = table w)).
Proof.
  split; [|split].
  - intros E form w. sms_cases E form w; [|split; discriminate].
    reply_facts E sms_reply w. split; [|exact H500].
    intros H. eexists. exact (H200 H).
  - intros E request w. web_clip_cases E request w; try (split; discriminate).
    reply_facts E web_clip_reply w. split; [|exact H500].
    intros H. eexists. exact (H200 H).
  - intros E form w. email_cases E form w; try (split; discriminate).
    reply_facts E email_reply w. split; [|exact H500].
    intros H. eexists. exact (H200 H).
Qed.

(** Each route on a store that takes the note and on one out of reach. *)
Lemma routes_reply_tells_storage_witness :
  let up := Env (constant_chat "ok") healthy_db in
  let down := Env (constant_chat "ok") unreachable_db in
  let sms := [("From", "+15550100"); ("Body", "buy milk")] in
  let clip := WebClipRequest true [("url", "https://example.org"); ("text", "hi")] in
  let mail := [("sender", "ana@example.org"); ("body-plain", "hi")] in
  ((exists r, persisted empty_world (snd (sms_webhook up sms empty_world)) r)
   /\ table (snd (sms_webhook down sms empty_world)) = table empty_world)
  /\ ((exists r, persisted empty_world (snd (web_clip_webhook up clip empty_world)) r)
      /\ table (snd (web_clip_webhook down clip empty_world)) = table empty_world)
  /\ ((exists r, persisted empty_world (snd (receive_email up mail empty_world)) r)
      /\ table (snd (receive_email down mail empty_world)) = table empty_world).
Proof.
  intros up down sms clip mail.
  destruct routes_reply_tells_storage as (Hsms & Hclip & Hmail).
  split; [|split]; split.
  - apply (proj1 (Hsms up sms empty_world)). reflexivity.
  - apply (proj2 (Hsms down sms empty_world)). reflexivity.
  - apply (proj1 (Hclip up clip empty_world)). reflexivity.
  - apply (proj2 (Hclip down clip empty_world)). reflexivity.
  - apply (proj1 (Hmail up mail empty_world)). reflexivity.
  - apply (proj2 (Hmail down mail empty_world)). reflexivity.
Defined.




(** ** What the routes store *)

(** Whatever the service and the store do, a route leaves the table as it
    was or adds one row, and the content of that row is never blank. *)
Theorem routes_store_content :
  (forall E form w,
      table (snd (sms_webhook E form w)) = table w
      \/ exists r, persisted w (snd (sms_webhook E form w)) r
                   /\ truthy (strip (content r)) = true)
  /\ (forall E request w,
        table (snd (web_clip_webhook E request w)) = table w
        \/ exists r, persisted w (snd (web_clip_webhook E request w)) r
                     /\ truthy (strip (content r)) = true)
  /\ (forall E form w,
        table (snd (receive_email E form w)) = table w
        \/ exists r, persisted w (snd (receive_email E form w)) r
                     /\ truthy (strip (content r)) = true).
Proof.
  split; [|split].
  - intros E form w. sms_cases E form w; [|now left].
    reply_facts E sms_reply w. destruct Hrows as [Hsame|Hrow]; [now left|].
    right. eexists. split; [exact Hrow|exact Hbody].
  - intros E request w. web_clip_cases E request w; try now left.
    reply_facts E web_clip_reply w. destruct Hrows as [Hsame|Hrow]; [now left|].
    right. eexists. split; [exact Hrow|]. cbn [content]. now rewrite strip_blank.
  - intros E form w. email_cases E form w; try now left.
    reply_facts E email_reply w. destruct Hrows as [Hsame|Hrow]; [now left|].
    right. eexists. split; [exact Hrow|]. cbn [content].
    destruct (get form "subject") as [[|c subject]|]; cbn [email_content];
      [exact Hblank | now rewrite strip_blank | exact Hblank].
Qed.

(** A row stored by the web clip route always has a username, and never
    an empty one. *)
Theorem web_clip_username_never_empty (E : env) (request : web_clip_request) (w : world) :
  table (snd (web_clip_webhook E request w)) = table w
  \/ exists r name,
       persisted w (snd (web_clip_webhook E request w)) r
       /\ username r = Some name /\ truthy name = true.
Proof.
  web_clip_cases E request w; try now left.
  reply_facts E web_clip_reply w. destruct Hrows as [Hsame|Hrow]; [now left|].
  right. eexists. eexists. split; [exact Hrow|]. cbn [username].
  split; [reflexivity|].
  now destruct (get data "username") as [[|c name]|].
Qed.

(** The email route stores the [sender] field as it came, an empty one
    too, on a store that accepts the row. *)
Theorem email_sender_verbatim (E : env) (form : list (string * string))
      (body_plain : string) (w : world) :
  get form "body-plain" = Some body_plain ->
  truthy (strip body_plain) = true ->
  store_ok (db E) = true ->
  exists w' r,
    receive_email E form w = (Ret (Text "Email received and saved!", 200), w')
    /\ persisted w w' r
    /\ username r = get form "sender".
Proof.
  intros Hbody Hb Hdb.
  rewrite (receive_email_pipeline E form body_plain w Hbody Hb).
  rewrite (reply_with_ok E email_reply _ _ _ _ _ _ Hdb).
  do 2 eexists. repeat split; reflexivity.
Qed.

(** An email whose sender field is empty. *)
Lemma email_sender_verbatim_witness :
  let E := Env (constant_chat "ok") healthy_db in
  let form := [("sender", ""); ("body-plain", "hi")] in
  exists w' r,
    receive_email E form empty_world = (Ret (Text "Email received and saved!", 200), w')
    /\ persisted empty_world w' r
    /\ username r = Some "".
Proof.
  intros E form. apply (email_sender_verbatim E form "hi" empty_world); reflexivity.
Defined.

(** ** The order of the calls and the part of the service *)

(** For a valid web clip or email, the three chat requests come first, then
    the connection attempt, then calls on the store only: a store out of
    reach is noticed after the service has been called three times. *)
Theorem enrichment_precedes_persistence :
  (forall E data url text w,
      get data "url" = Some url -> truthy url = true ->
      get data "text" = Some text -> truthy (strip text) = true ->
      exists evs,
        new_events w (snd (web_clip_webhook E (WebClipRequest true data) w))
        = (enrichment_events ("Web Clip from " ++ url ++ ":" ++ nl ++ nl ++ text)
           ++ EvConnect :: evs)%list
        /\ forallb is_store_event evs = true)
  /\ (forall E form body_plain w,
        get form "body-plain" = Some body_plain -> truthy (strip body_plain) = true ->
        exists evs,
          new_events w (snd (receive_email E form w))
          = (enrichment_events (email_content (get form "subject") body_plain)
             ++ EvConnect :: evs)%list
          /\ forallb is_store_event evs = true).
Proof.
  split.
  - intros E data url text w Hurl Hu Htext Ht.
    rewrite (web_clip_webhook_pipeline E data url text w Hurl Hu Htext Ht).
    apply route_events.
  - intros E form body_plain w Hbody Hb.
    rewrite (receive_email_pipeline E form body_plain w Hbody Hb).
    apply route_events.
Qed.

(** A web clip and an email with the store out of reach. *)
Lemma enrichment_precedes_persistence_witness :
  let E := Env (constant_chat "ok") unreachable_db in
  (exists evs,
      new_events empty_world
        (snd (web_clip_webhook E
                (WebClipRequest true [("url", "https://example.org"); ("text", "hi")])
                empty_world))
      = (enrichment_events ("Web Clip from https://example.org:" ++ nl ++ nl ++ "hi")
         ++ EvConnect :: evs)%list
      /\ forallb is_store_event evs = true)
  /\ (exists evs,
        new_events empty_world
          (snd (receive_email E [("subject", "Notes"); ("body-plain", "hi")] empty_world))
        = (enrichment_events ("Subject: Notes" ++ nl ++ nl ++ "hi")
           ++ EvConnect :: evs)%list
        /\ forallb is_store_event evs = true).
Proof.
  intros E. destruct enrichment_precedes_persistence as (Hclip & Hmail).
  split.
  - apply (Hclip E [("url", "https://example.org"); ("text", "hi")]
                 "https://example.org" "hi" empty_world); reflexivity.
  - apply (Hmail E [("subject", "Notes"); ("body-plain", "hi")] "hi" empty_world);
      reflexivity.
Defined.

Lemma save_chat_irrelevant (ch ch' : chat_request -> chat_outcome) (o : db_oracle)
      (c s se : string) (ks : list string) (u : option string) (w : world)
      (c' s' se' : string) (ks' : list string) (u' : option string) (w' : world) :
  fst (save_note_to_database (Env ch o) c s se ks u w)
  = fst (save_note_to_database (Env ch' o) c' s' se' ks' u' w').
Proof. case_oracle o; reflexivity. Qed.

Lemma reply_with_chat_irrelevant (reply : bool -> response)
      (ch ch' : chat_request -> chat_outcome) (o : db_oracle)
      (c s se : string) (ks : list string) (u : option string) (w : world)
      (c' s' se' : string) (ks' : list string) (u' : option string) (w' : world) :
  fst (reply_with reply (save_note_to_database (Env ch o) c s se ks u) w)
  = fst (reply_with reply (save_note_to_database (Env ch' o) c' s' se' ks' u') w').
Proof.
  generalize (save_chat_irrelevant ch ch' o c s se ks u w c' s' se' ks' u' w').
  unfold reply_with, bind.
  destruct (save_note_to_database (Env ch o) c s se ks u w) as [[b|e] w1];
    destruct (save_note_to_database (Env ch' o) c' s' se' ks' u' w') as [[b'|e'] w1'];
    cbn [fst ret]; congruence.
Qed.

(** What a route answers does not depend on the service: when the calls on
    the store go the same way, two services that answer or fail in any way
    lead to the same reply, or to the same exception, for the same request. *)
Theorem reply_ignores_service (ch ch' : chat_request -> chat_outcome) (o : db_oracle)
      (w w' : world) :
  (forall form,
      fst (sms_webhook (Env ch o) form w) = fst (sms_webhook (Env ch' o) form w'))
  /\ (forall request,
        fst (web_clip_webhook (Env ch o) request w)
        = fst (web_clip_webhook (Env ch' o) request w'))
  /\ (forall form,
        fst (receive_email (Env ch o) form w) = fst (receive_email (Env ch' o) form w')).
Proof.
  split; [|split].
  - intros form.
    destruct (truthy (strip (get_default form "Body" ""))) eqn:Hbody.
    + rewrite !(sms_webhook_pipeline _ form _ Hbody). apply reply_with_chat_irrelevant.
    + now rewrite !(sms_webhook_blank _ form _ Hbody).
  - intros [j data]. destruct j; [|reflexivity].
    destruct (truthy_opt (get data "url")) eqn:Hurl.
    + destruct (get data "text") as [text|] eqn:Htext.
      * destruct (truthy (strip text)) eqn:Hblank.
        -- destruct (get data "url") as [url|] eqn:Hu; [|discriminate].
           rewrite !(web_clip_webhook_pipeline _ data url text _ Hu Hurl Htext Hblank).
           apply reply_with_chat_irrelevant.
        -- now rewrite !(web_clip_webhook_blank_text _ data text _ Htext Hblank).
      * now rewrite !(web_clip_webhook_missing_text _ data _ Hurl Htext).
    + now rewrite !(web_clip_webhook_missing_url _ data _ Hurl).
  - intros form. destruct (get form "body-plain") as [body_plain|] eqn:Hbody.
    + destruct (truthy (strip body_plain)) eqn:Hblank.
      * rewrite !(receive_email_pipeline _ form body_plain _ Hbody Hblank).
        apply reply_with_chat_irrelevant.
      * now rewrite !(receive_email_blank_body _ form body_plain _ Hbody Hblank).
    + now rewrite !(receive_email_missing_body _ form _ Hbody).
Qed.

(** When the keywords request fails, the error text is parsed like an
    answer and stored as the keywords of the note: at least one keyword, the
    first one starting with [Error:], and one more for every comma of the
    cause that is followed by something. *)
Theorem failed_keywords_are_stored (E : env) (form : list (string * string))
      (w : world) (e : exn) :
  truthy (strip (get_default form "Body" "")) = true ->
  chat E (chat_request_for (get_default form "Body" "") "keywords") = ChatRaise e ->
  store_ok (db E) = true ->
  exists w' r k ks,
    sms_webhook E form w
    = (Ret (Twiml "Your SMS note has been processed and saved to Micro-Atlas! 🧠", 200), w')
    /\ persisted w w' r
    /\ keywords r = keywords_pg_array (k :: ks)
    /\ parse_keywords_response ("Error: " ++ exn_str e) = k :: ks
    /\ startswith "Error:" k = true.
Proof.
  intros Hbody He Hdb.
  rewrite (sms_webhook_pipeline E form w Hbody).
  rewrite (reply_with_ok E sms_reply _ _ _ _ _ _ Hdb).
  destruct (parse_error_text (exn_str e)) as (k & ks & Hparse & Hk).
  do 2 eexists. exists k, ks. split; [reflexivity|]. split; [reflexivity|].
  split; [|split; [exact Hparse | exact Hk]].
  cbn [keywords]. unfold analysis. rewrite He. cbn [analysis_of]. now rewrite Hparse.
Qed.

(** An SMS whose keywords request hits a rate limit: two keywords. *)
Lemma failed_keywords_are_stored_witness :
  let E := Env (keywords_down "hello") healthy_db in
  let form := [("From", "+15550100"); ("Body", "hello")] in
  exists w' r k ks,
    sms_webhook E form empty_world
    = (Ret (Twiml "Your SMS note has been processed and saved to Micro-Atlas! 🧠", 200), w')
    /\ persisted empty_world w' r
    /\ keywords r = keywords_pg_array (k :: ks)
    /\ parse_keywords_response ("Error: " ++ "Rate limit reached, retry in 20s") = k :: ks
    /\ startswith "Error:" k = true.
Proof.
  intros E form.
  apply (failed_keywords_are_stored E form empty_world
           (Exn OtherException "Rate limit reached, retry in 20s")); reflexivity.
Defined.
